(** * civis.io._databases: query_civis and transfer_table

    A shallow embedding of [src/civis/io/_databases.py].  The two
    functions are straight-line glue over a remote API client, so the
    interesting content is *which* calls are made, in which order, with
    which arguments, and what happens when one of them raises.  The
    embedding therefore threads a chronological log of the calls made
    (the history) through a small state-and-exception monad; the remote
    platform is an arbitrary deterministic environment whose answers may
    depend on everything that was called before. *)

From Stdlib Require Import ZArith.
From stdpp Require Import gmap strings list.

Open Scope string_scope.
Open Scope Z_scope.
Open Scope list_scope.

(** ** Python values *)

(** The values that travel through the two functions: [None], booleans,
    unbounded integers and strings (database references and credential
    ids are documented as "str or int"). *)
Inductive pyval : Type :=
  | PyNone
  | PyBool (b : bool)
  | PyInt (z : Z)
  | PyStr (s : string).

(** Python truth value testing, as used by [x or y]. *)
Definition truthy (v : pyval) : bool :=
  match v with
  | PyNone => false
  | PyBool b => b
  | PyInt z => negb (Z.eqb z 0)
  | PyStr s => negb (String.eqb s "")
  end.

(** A keyword-argument dictionary / dict literal with string keys. *)
Abbreviation pydict := (gmap string pyval).

(** Exceptions are identified by their class name and carry a message. *)
Record exn : Type := Exn { exn_class : string; exn_msg : string }.

Inductive result (A : Type) : Type :=
  | Ok (a : A)
  | Raise (e : exn).
Arguments Ok {A} a.
Arguments Raise {A} e.

Definition error_of {A} (r : result A) : option exn :=
  match r with
  | Ok _ => None
  | Raise e => Some e
  end.

(** ** Status snapshots returned by the status probes *)

Inductive job_state : Type := Queued | Running | Succeeded | Failed | Cancelled.

Record StatusSnapshot : Type := { state : job_state; payload : pyval }.

Definition is_terminal (s : StatusSnapshot) : bool :=
  match state s with
  | Succeeded | Failed | Cancelled => true
  | Queued | Running => false
  end.

(** ** The log of calls *)

(** One constructor per call that leaves [_databases.py] (or the polling
    object it returns), with the arguments the call was made with. *)
Inductive event : Type :=
  | EvAPIClient (api_key : pyval)
  | EvGetDatabaseId (database : pyval)
  | EvDefaultCredential
  | EvRandomName (name : pyval)
  | EvQueriesPost (database_id : Z) (sql : string) (preview_rows : Z)
                  (credential : pyval)
  | EvImportsPost (name : pyval) (sync_type : string) (is_outbound : bool)
                  (source destination : pydict)
  | EvImportsPostSyncs (id : Z) (source destination : pydict)
                       (advanced_options : pydict)
  | EvImportsPostRuns (id : Z)
  | EvQueriesGet (args : list Z)
  | EvImportsGetFilesRuns (args : list Z)
  | EvSleep (seconds : pyval).

Abbreviation history := (list event).

(** ** The monad: a history threaded through code that may raise *)

Definition M (A : Type) : Type := history -> result A * history.

Definition ret {A} (a : A) : M A := fun h => (Ok a, h).

Definition bind {A B} (m : M A) (k : A -> M B) : M B :=
  fun h =>
    match m h with
    | (Ok a, h') => k a h'
    | (Raise e, h') => (Raise e, h')
    end.

(** An outgoing call: the environment answers from the history so far,
    and the call is appended to the history whether or not it raises. *)
Definition call {A} (ev : event) (oracle : history -> result A) : M A :=
  fun h => (oracle h, h ++ [ev]).

Notation "x <- m ;; k" := (bind m (fun x => k))
  (at level 100, m at next level, right associativity).

(** [x or <expr>]: the right operand is evaluated only when [x] is falsy. *)
Definition py_or (x : pyval) (rhs : M pyval) : M pyval :=
  if truthy x then ret x else rhs.

(** ** The collaborators that are not part of this module *)

(** The API client object: each method is an oracle reading the history
    of calls made so far. *)
Record APIClient : Type := {
  get_database_id_r : history -> pyval -> result Z;
  default_credential_r : history -> result pyval;
  queries_post_r : history -> Z -> string -> Z -> pyval -> result Z;
  queries_get_r : history -> list Z -> result StatusSnapshot;
  imports_post_r :
    history -> pyval -> string -> bool -> pydict -> pydict -> result Z;
  imports_post_syncs_r :
    history -> Z -> pydict -> pydict -> pydict -> result unit;
  imports_post_runs_r : history -> Z -> result Z;
  imports_get_files_runs_r : history -> list Z -> result StatusSnapshot
}.

(** What the module imports: the client constructor, the job-name helper
    of [civis._utils] and the default interval of [civis.polling]. *)
Record Platform : Type := {
  APIClient_r : history -> pyval -> result APIClient;
  maybe_get_random_name_r : history -> pyval -> result pyval;
  _DEFAULT_POLLING_INTERVAL : pyval
}.

(** Monadic wrappers: every use of a collaborator is logged. *)
Definition new_APIClient (srv : Platform) (api_key : pyval) : M APIClient :=
  call (EvAPIClient api_key) (fun h => APIClient_r srv h api_key).

Definition maybe_get_random_name (srv : Platform) (name : pyval) : M pyval :=
  call (EvRandomName name) (fun h => maybe_get_random_name_r srv h name).

Definition get_database_id (client : APIClient) (database : pyval) : M Z :=
  call (EvGetDatabaseId database) (fun h => get_database_id_r client h database).

Definition default_credential (client : APIClient) : M pyval :=
  call EvDefaultCredential (default_credential_r client).

Definition queries_post (client : APIClient) (database_id : Z) (sql : string)
    (preview_rows : Z) (credential : pyval) : M Z :=
  call (EvQueriesPost database_id sql preview_rows credential)
       (fun h => queries_post_r client h database_id sql preview_rows credential).

Definition queries_get (client : APIClient) (args : list Z) : M StatusSnapshot :=
  call (EvQueriesGet args) (fun h => queries_get_r client h args).

Definition imports_post (client : APIClient) (name : pyval) (sync_type : string)
    (is_outbound : bool) (source destination : pydict) : M Z :=
  call (EvImportsPost name sync_type is_outbound source destination)
       (fun h => imports_post_r client h name sync_type is_outbound
                                source destination).

Definition imports_post_syncs (client : APIClient) (id : Z)
    (source destination advanced_options : pydict) : M unit :=
  call (EvImportsPostSyncs id source destination advanced_options)
       (fun h => imports_post_syncs_r client h id source destination
                                      advanced_options).

Definition imports_post_runs (client : APIClient) (id : Z) : M Z :=
  call (EvImportsPostRuns id) (fun h => imports_post_runs_r client h id).

Definition imports_get_files_runs (client : APIClient) (args : list Z)
    : M StatusSnapshot :=
  call (EvImportsGetFilesRuns args) (fun h => imports_get_files_runs_r client h args).

(** ** PollableResult *)

(** Modelled from the spec: the class [PollableResult] of [civis.polling]
    is imported by this module but its source is not part of it.  Per
    section 4.1 a pollable future holds a status probe, the fixed tuple
    of arguments the probe is applied to, a poll interval, and the last
    status snapshot it observed (nothing at construction). *)
Record PollableResult : Type := {
  poller : list Z -> M StatusSnapshot;
  poller_args : list Z;
  polling_interval : pyval;
  last_snapshot : option StatusSnapshot
}.

(** The constructor call [PollableResult(poller, poller_args, interval)]. *)
Definition new_PollableResult (p : list Z -> M StatusSnapshot) (args : list Z)
    (interval : pyval) : PollableResult :=
  {| poller := p; poller_args := args; polling_interval := interval;
     last_snapshot := None |}.

(** ** The module's two functions *)

Section Databases.

Variable srv : Platform.

(** [query_civis(sql, database, api_key=None, credential_id=None,
    preview_rows=10, polling_interval=_DEFAULT_POLLING_INTERVAL)].
    An argument left out by the caller is [None] here and takes the
    default of the signature. *)
Definition query_civis (sql : string) (database : pyval)
    (api_key credential_id : option pyval) (preview_rows : option Z)
    (polling_interval : option pyval) : M PollableResult :=
  let api_key := default PyNone api_key in
  let credential_id := default PyNone credential_id in
  let preview_rows := default 10 preview_rows in
  let polling_interval := default (_DEFAULT_POLLING_INTERVAL srv) polling_interval in
  client <- new_APIClient srv api_key ;;
  database_id <- get_database_id client database ;;
  cred_id <- py_or credential_id (default_credential client) ;;
  resp_id <- queries_post client database_id sql preview_rows cred_id ;;
  ret (new_PollableResult (queries_get client) [resp_id] polling_interval).

(** [transfer_table(source_db, dest_db, source_table, dest_table,
    job_name=None, api_key=None, source_credential_id=None,
    dest_credential_id=None, polling_interval=..., **advanced_options)]. *)
Definition transfer_table (source_db dest_db : pyval)
    (source_table dest_table : pyval)
    (job_name api_key source_credential_id dest_credential_id : option pyval)
    (polling_interval : option pyval) (advanced_options : pydict)
    : M PollableResult :=
  let job_name := default PyNone job_name in
  let api_key := default PyNone api_key in
  let source_credential_id := default PyNone source_credential_id in
  let dest_credential_id := default PyNone dest_credential_id in
  let polling_interval := default (_DEFAULT_POLLING_INTERVAL srv) polling_interval in
  client <- new_APIClient srv api_key ;;
  source_cred_id <- py_or source_credential_id (default_credential client) ;;
  dest_cred_id <- py_or dest_credential_id (default_credential client) ;;
  job_name <- maybe_get_random_name srv job_name ;;
  source_host <- get_database_id client source_db ;;
  let source : pydict :=
    {[ "remote_host_id" := PyInt source_host;
       "credential_id" := source_cred_id ]} in
  dest_host <- get_database_id client dest_db ;;
  let destination : pydict :=
    {[ "remote_host_id" := PyInt dest_host;
       "credential_id" := dest_cred_id ]} in
  job_id <- imports_post client job_name "Dbsync" true source destination ;;
  _ <- imports_post_syncs client job_id
         {[ "path" := source_table ]} {[ "path" := dest_table ]}
         advanced_options ;;
  run_id <- imports_post_runs client job_id ;;
  let poll := new_PollableResult (imports_get_files_runs client)
                                 [job_id; run_id] polling_interval in
  ret poll.

End Databases.

(** ** Reading a history *)

(** The calls that create or change work on the platform. *)
Definition is_submission (ev : event) : bool :=
  match ev with
  | EvQueriesPost _ _ _ _ | EvImportsPost _ _ _ _ _
  | EvImportsPostSyncs _ _ _ _ | EvImportsPostRuns _ => true
  | _ => false
  end.

Definition submissions (t : list event) : list event :=
  List.filter is_submission t.

(** The three submission steps of a table transfer. *)
Inductive step : Type := CreateJob | ConfigureSync | StartRun.

Definition step_of (ev : event) : option step :=
  match ev with
  | EvImportsPost _ _ _ _ _ => Some CreateJob
  | EvImportsPostSyncs _ _ _ _ => Some ConfigureSync
  | EvImportsPostRuns _ => Some StartRun
  | _ => None
  end.

Definition steps (t : list event) : list step := omap step_of t.

Definition is_default_credential_read (ev : event) : bool :=
  match ev with
  | EvDefaultCredential => true
  | _ => false
  end.

Definition default_credential_reads (t : list event) : nat :=
  length (List.filter is_default_credential_read t).

(** The reads that [credential or client.default_credential] makes. *)
Definition default_reads (credential : pyval) : list event :=
  if truthy credential then [] else [EvDefaultCredential].

Definition is_status_probe (ev : event) : bool :=
  match ev with
  | EvQueriesGet _ | EvImportsGetFilesRuns _ => true
  | _ => false
  end.

(** The look-ups of a database reference. *)
Definition is_resolution (ev : event) : bool :=
  match ev with
  | EvGetDatabaseId _ => true
  | _ => false
  end.

Definition resolutions (t : list event) : list event :=
  List.filter is_resolution t.

(** The calls that go to the platform: all but the construction of the
    client, the job-name helper and a wait. *)
Definition is_remote_call (ev : event) : bool :=
  match ev with
  | EvAPIClient _ | EvRandomName _ | EvSleep _ => false
  | _ => true
  end.

(** What polling may log: status probes and the waits between them. *)
Definition is_polling_event (ev : event) : bool :=
  match ev with
  | EvQueriesGet _ | EvImportsGetFilesRuns _ | EvSleep _ => true
  | _ => false
  end.

(** Replaying a logged call: the exception, if any, with which the call
    [ev] made on top of history [h] was answered. *)
Definition failure (srv : Platform) (client : APIClient) (h : history)
    (ev : event) : option exn :=
  match ev with
  | EvAPIClient k => error_of (APIClient_r srv h k)
  | EvGetDatabaseId d => error_of (get_database_id_r client h d)
  | EvDefaultCredential => error_of (default_credential_r client h)
  | EvRandomName n => error_of (maybe_get_random_name_r srv h n)
  | EvQueriesPost d s n c => error_of (queries_post_r client h d s n c)
  | EvImportsPost n ty o s d => error_of (imports_post_r client h n ty o s d)
  | EvImportsPostSyncs i s d a =>
      error_of (imports_post_syncs_r client h i s d a)
  | EvImportsPostRuns i => error_of (imports_post_runs_r client h i)
  | EvQueriesGet a => error_of (queries_get_r client h a)
  | EvImportsGetFilesRuns a => error_of (imports_get_files_runs_r client h a)
  | EvSleep _ => None
  end.

(** Walking the calls [t] made on top of [h]: the first call that was
    answered with an exception is the last call of [t], and its exception
    is the outcome [r]. *)
Fixpoint stops_at_failure {A} (srv : Platform) (client : APIClient)
    (h : history) (t : list event) (r : result A) : Prop :=
  match t with
  | [] => True
  | ev :: t' =>
      match failure srv client h ev with
      | Some e => t' = [] /\ r = Raise e
      | None => stops_at_failure srv client (h ++ [ev]) t' r
      end
  end.

(** ** Operations of a pollable future *)

(** Modelled from the spec: the methods of [PollableResult] (section 4.1;
    the class is not among the sources).  The object is mutable, so each
    operation returns the updated object next to its answer. *)
Definition observe (f : PollableResult) (s : StatusSnapshot) : PollableResult :=
  {| poller := poller f; poller_args := poller_args f;
     polling_interval := polling_interval f; last_snapshot := Some s |}.

(** The cached snapshot, when it is terminal. *)
Definition cached_terminal (f : PollableResult) : option StatusSnapshot :=
  match last_snapshot f with
  | Some s => if is_terminal s then Some s else None
  | None => None
  end.

(** "poll once": one probe invocation, whose snapshot is cached; after a
    terminal snapshot was observed, the cached snapshot and no probe.  A
    probe that raises leaves the object as it was. *)
Definition poll_once (f : PollableResult) : M (StatusSnapshot * PollableResult) :=
  match cached_terminal f with
  | Some s => ret (s, f)
  | None =>
      s <- poller f (poller_args f) ;;
      ret (s, observe f s)
  end.

Definition sleep (seconds : pyval) : M unit :=
  call (EvSleep seconds) (fun _ => Ok tt).

(** "result": probe, and sleep for the interval between two probes, until
    a terminal snapshot is seen.  The loop of the spec is unbounded;
    [fuel] bounds the number of probes, and [None] is the answer of a
    run that is still waiting when the fuel is spent. *)
Fixpoint result_loop (fuel : nat) (f : PollableResult)
    : M (option StatusSnapshot * PollableResult) :=
  match cached_terminal f with
  | Some s => ret (Some s, f)
  | None =>
      match fuel with
      | O => ret (None, f)
      | S fuel' =>
          sf <- poll_once f ;;
          if is_terminal sf.1 then ret (Some sf.1, sf.2)
          else (_ <- sleep (polling_interval sf.2) ;; result_loop fuel' sf.2)
      end
  end.

(** "done": whether the cached snapshot is terminal; never probes. *)
Definition done_check (f : PollableResult) : M (bool * PollableResult) :=
  ret (match cached_terminal f with Some _ => true | None => false end, f).

(** A caller's use of a future: a sequence of these calls. *)
Inductive future_call : Type :=
  | CallPoll
  | CallResult (fuel : nat)
  | CallDone.

Inductive answer : Type :=
  | Snapshot (s : StatusSnapshot)
  | StillWaiting
  | IsDone (b : bool).

Definition do_call (c : future_call) (f : PollableResult)
    : M (answer * PollableResult) :=
  match c with
  | CallPoll => sf <- poll_once f ;; ret (Snapshot sf.1, sf.2)
  | CallResult fuel =>
      sf <- result_loop fuel f ;;
      ret (match sf.1 with Some s => Snapshot s | None => StillWaiting end, sf.2)
  | CallDone => bf <- done_check f ;; ret (IsDone bf.1, bf.2)
  end.

Fixpoint do_calls (cs : list future_call) (f : PollableResult)
    : M (list answer * PollableResult) :=
  match cs with
  | [] => ret ([], f)
  | c :: cs' =>
      af <- do_call c f ;;
      rest <- do_calls cs' af.2 ;;
      ret (af.1 :: rest.1, rest.2)
  end.

(** The answer each call gives from a cached terminal snapshot [s]. *)
Definition cached_answer (c : future_call) (s : StatusSnapshot) : answer :=
  match c with
  | CallPoll | CallResult _ => Snapshot s
  | CallDone => IsDone true
  end.


(** In the run [t] made on top of [h], the call [ev] was answered with
    the exception [e]. *)
Definition call_failed (srv : Platform) (client : APIClient) (h : history)
    (t : list event) (ev : event) (e : exn) : Prop :=
  exists pre post, t = pre ++ ev :: post /\ failure srv client (h ++ pre) ev = Some e.

(** The submission steps made by a run that got as far as step [s]. *)
Definition steps_through (s : step) : list step :=
  match s with
  | CreateJob => [CreateJob]
  | ConfigureSync => [CreateJob; ConfigureSync]
  | StartRun => [CreateJob; ConfigureSync; StartRun]
  end.

(** The futures handed out by the two functions. *)
Definition returned_by (srv : Platform) (f : PollableResult) : Prop :=
  (exists sql database api_key credential_id preview_rows polling_interval h h',
     query_civis srv sql database api_key credential_id preview_rows
                 polling_interval h = (Ok f, h')) \/
  (exists source_db dest_db source_table dest_table job_name api_key
          source_credential_id dest_credential_id polling_interval
          advanced_options h h',
     transfer_table srv source_db dest_db source_table dest_table job_name
       api_key source_credential_id dest_credential_id polling_interval
       advanced_options h = (Ok f, h')).

(** The probe of a future logs one status call and nothing else. *)
Definition probe_logs (f : PollableResult) : Prop :=
  forall args h, exists r ev,
    poller f args h = (r, h ++ [ev]) /\ is_status_probe ev = true.

(** ** Concrete platforms for examples *)

(** The error with which the resolution of a database reference fails. *)
Definition NotFound (what : string) : exn := Exn "NotFound" what.

Module Demo.

Definition api_error : exn := Exn "CivisAPIError" "(500) server error".

Definition probes_so_far (h : history) : nat :=
  length (List.filter is_status_probe h).

(** A job is queued for the first two probes and has succeeded after. *)
Definition status_after (h : history) : StatusSnapshot :=
  if (probes_so_far h <? 2)%nat
  then {| state := Queued; payload := PyNone |}
  else {| state := Succeeded; payload := PyStr "ok" |}.

(** Which of the three transfer steps the platform refuses, if any. *)
Definition refuses (bad : option step) (s : step) : bool :=
  match bad, s with
  | Some CreateJob, CreateJob
  | Some ConfigureSync, ConfigureSync
  | Some StartRun, StartRun => true
  | _, _ => false
  end.

Definition client (bad : option step) : APIClient := {|
  get_database_id_r := fun _ db =>
    match db with
    | PyInt z => Ok z
    | PyStr s =>
        if String.eqb s "redshift" then Ok 7
        else if String.eqb s "warehouse" then Ok 8
        else Raise (NotFound s)
    | _ => Raise (NotFound "database")
    end;
  default_credential_r := fun _ => Ok (PyInt 42);
  queries_post_r := fun _ _ _ _ _ => Ok 1001;
  queries_get_r := fun h _ => Ok (status_after h);
  imports_post_r := fun _ _ _ _ _ _ =>
    if refuses bad CreateJob then Raise api_error else Ok 2001;
  imports_post_syncs_r := fun _ _ _ _ _ =>
    if refuses bad ConfigureSync then Raise api_error else Ok tt;
  imports_post_runs_r := fun _ _ =>
    if refuses bad StartRun then Raise api_error else Ok 3001;
  imports_get_files_runs_r := fun h _ => Ok (status_after h)
|}.

Definition platform (bad : option step) : Platform := {|
  APIClient_r := fun _ _ => Ok (client bad);
  maybe_get_random_name_r := fun _ n =>
    Ok (if truthy n then n else PyStr "f3a9c1d2");
  _DEFAULT_POLLING_INTERVAL := PyInt 15
|}.

Definition healthy : Platform := platform None.

Definition options : pydict :=
  {[ "max_errors" := PyInt 0; "truncate_long_lines" := PyBool true ]}.

(** A query with every optional argument but [preview_rows] left out. *)
Definition query (preview_rows : option Z) : M PollableResult :=
  query_civis healthy "select 1" (PyStr "redshift") None None preview_rows
              None.

(** A transfer with every optional argument left out, on a platform
    that may refuse one step, and with the credentials given. *)
Definition transfer_with (bad : option step)
    (source_credential_id dest_credential_id : option pyval)
    : M PollableResult :=
  transfer_table (platform bad) (PyStr "redshift") (PyStr "warehouse")
    (PyStr "public.src") (PyStr "public.dst") None None
    source_credential_id dest_credential_id None options.

Definition transfer (bad : option step) : M PollableResult :=
  transfer_with bad None None.

(** The calls of such a transfer, when both credentials are left out. *)
Definition before_create : list event :=
  [EvAPIClient PyNone; EvDefaultCredential; EvDefaultCredential;
   EvRandomName PyNone; EvGetDatabaseId (PyStr "redshift");
   EvGetDatabaseId (PyStr "warehouse")].

Definition create_call : event :=
  EvImportsPost (PyStr "f3a9c1d2") "Dbsync" true
    {[ "remote_host_id" := PyInt 7; "credential_id" := PyInt 42 ]}
    {[ "remote_host_id" := PyInt 8; "credential_id" := PyInt 42 ]}.

Definition sync_call : event :=
  EvImportsPostSyncs 2001 {[ "path" := PyStr "public.src" ]}
    {[ "path" := PyStr "public.dst" ]} options.

Definition run_call : event := EvImportsPostRuns 2001.

End Demo.

(** A client as the library has it: an unknown database name is a
    [ValueError]. *)
Definition ValueError (what : string) : exn := Exn "ValueError" what.

Definition strict_client : APIClient := {|
  get_database_id_r := fun _ db =>
    match db with
    | PyInt z => Ok z
    | PyStr s =>
        if String.eqb s "redshift" then Ok 7
        else Raise (ValueError ("Database " ++ s ++ " not found."))
    | _ => Raise (ValueError "Database not found.")
    end;
  default_credential_r := default_credential_r (Demo.client None);
  queries_post_r := queries_post_r (Demo.client None);
  queries_get_r := queries_get_r (Demo.client None);
  imports_post_r := imports_post_r (Demo.client None);
  imports_post_syncs_r := imports_post_syncs_r (Demo.client None);
  imports_post_runs_r := imports_post_runs_r (Demo.client None);
  imports_get_files_runs_r := imports_get_files_runs_r (Demo.client None)
|}.

Definition strict_platform : Platform := {|
  APIClient_r := fun _ _ => Ok strict_client;
  maybe_get_random_name_r := maybe_get_random_name_r Demo.healthy;
  _DEFAULT_POLLING_INTERVAL := PyInt 15
|}.

(** ** What a collaborator may be known to do *)

(** The default credential can always be read. *)
Definition credential_available (client : APIClient) : Prop :=
  forall h e, default_credential_r client h <> Raise e.

(** The job-name helper always answers. *)
Definition name_available (srv : Platform) : Prop :=
  forall h name e, maybe_get_random_name_r srv h name <> Raise e.

(** The database reference never resolves: every look-up raises [e]. *)
Definition unresolvable (client : APIClient) (db : pyval) (e : exn) : Prop :=
  forall h, get_database_id_r client h db = Raise e.

(** The database reference always resolves. *)
Definition resolvable (client : APIClient) (db : pyval) : Prop :=
  forall h e, get_database_id_r client h db <> Raise e.

(** ** Statements of the specification that the code does not meet *)

(** The reading of C1 as written: the call raises a [ValidationError]
    and, the construction of the client apart, has called nothing. *)
Definition rejected_before_any_call (srv : Platform) (sql : string)
    (database : pyval) (api_key credential_id : option pyval)
    (preview_rows : Z) (polling_interval : option pyval) (h : history) : Prop :=
  exists e t,
    query_civis srv sql database api_key credential_id (Some preview_rows)
                polling_interval h = (Raise e, h ++ t) /\
    exn_class e = "ValidationError" /\
    forallb (fun ev => negb (is_remote_call ev)) t = true.

(** The reading of C5 as written, for [query_civis]: when the look-up of
    the database raises, the call raises a [NotFound] and has submitted
    nothing. *)
Definition unresolved_raises_NotFound : Prop :=
  forall srv sql database api_key credential_id preview_rows
         polling_interval h r t client e,
    query_civis srv sql database api_key credential_id preview_rows
                polling_interval h = (r, h ++ t) ->
    APIClient_r srv h (default PyNone api_key) = Ok client ->
    get_database_id_r client (h ++ [EvAPIClient (default PyNone api_key)])
                      database = Raise e ->
    exists e', r = Raise e' /\ exn_class e' = "NotFound" /\
               submissions t = [].

(** The reading of C7 as written, for a transfer that returns and left
    out a credential: its run read the default credential once. *)
Definition default_credential_read_once (srv : Platform)
    (source_db dest_db source_table dest_table : pyval)
    (job_name api_key source_credential_id dest_credential_id
     polling_interval : option pyval)
    (advanced_options : pydict) (h : history) : Prop :=
  source_credential_id = None \/ dest_credential_id = None ->
  forall f t,
    transfer_table srv source_db dest_db source_table dest_table job_name
      api_key source_credential_id dest_credential_id polling_interval
      advanced_options h = (Ok f, h ++ t) ->
    default_credential_reads t = 1%nat.

(** The reading of C4 as written: some way of reading the failed step
    off the raised error works for every run in which a step raised. *)
Definition step_annotated_errors : Prop :=
  exists annotation : exn -> option step,
    forall srv source_db dest_db source_table dest_table job_name api_key
           source_credential_id dest_credential_id polling_interval
           advanced_options h r t client ev e s,
      transfer_table srv source_db dest_db source_table dest_table job_name
        api_key source_credential_id dest_credential_id polling_interval
        advanced_options h = (r, h ++ t) ->
      APIClient_r srv h (default PyNone api_key) = Ok client ->
      step_of ev = Some s ->
      call_failed srv client h t ev e ->
      exists e', r = Raise e' /\ exn_class e' = "RemoteRequestError" /\
                 annotation e' = Some s.

(** * Properties *)

(** ** Stepping through a run *)

Ltac unfold_calls :=
  unfold new_APIClient, maybe_get_random_name, get_database_id,
    default_credential, queries_post, imports_post, imports_post_syncs,
    imports_post_runs, py_or, bind, call, ret in *.

(** Case analysis on the answer of every call of a run, in program order. *)
Ltac case_calls H :=
  repeat match type of H with
         | context [match ?x with Ok _ => _ | Raise _ => _ end] =>
             destruct x eqn:?; simpl in H
         | context [if truthy ?x then _ else _] =>
             destruct (truthy x) eqn:?; simpl in H
         end.

(** In one case of a run: name the calls that were added to the history. *)
Ltac name_trace H :=
  inversion H; subst; clear H;
  eexists; split; [rewrite <- ?app_assoc; simpl; reflexivity |].

(** Histories as [h ++ [call; ...; call]]. *)
Ltac flatten_histories :=
  repeat match goal with
         | E : context [(_ ++ _) ++ _] |- _ =>
             rewrite <- app_assoc in E; simpl in E
         end.

Ltac use_answers :=
  repeat match goal with
         | E : _ = Ok _ |- _ => rewrite E
         | E : _ = Raise _ |- _ => rewrite E
         | E : truthy _ = _ |- _ => rewrite E
         end.

(** Membership of a call in a trace that is known call by call. *)
Ltac split_in Hin :=
  apply list_elem_of_In in Hin; simpl in Hin;
  repeat match type of Hin with
         | _ \/ _ => destruct Hin as [Hin | Hin]
         end;
  try contradiction; try discriminate.

Ltac run_query H :=
  unfold query_civis in H; unfold_calls; simpl in H; case_calls H.

Ltac run_transfer H :=
  unfold transfer_table in H; unfold_calls; simpl in H; case_calls H.

(** The places at which a call can sit in a trace known call by call. *)
Ltac split_trace H :=
  repeat match type of H with
         | _ :: _ = ?pre ++ _ :: _ =>
             destruct pre as [| ? pre]; simpl in H;
             [ injection H as ? ? | injection H as ? H ]
         | [] = ?pre ++ _ :: _ => destruct pre; discriminate H
         end.

Ltac the_client client :=
  match goal with
  | E : APIClient_r _ _ _ = Ok ?a |- _ =>
      assert (client = a) by congruence; subst client
  end.

Ltac answers_in Hf :=
  repeat match goal with
         | E : _ = Ok _ |- _ => rewrite E in Hf
         | E : _ = Raise _ |- _ => rewrite E in Hf
         end;
  simpl in Hf.

(** The calls before the last one of a trace known call by call. *)
Ltac with_prefix tac :=
  first
    [ exists []; tac
    | eexists [_]; tac
    | eexists [_; _]; tac
    | eexists [_; _; _]; tac
    | eexists [_; _; _; _]; tac
    | eexists [_; _; _; _; _]; tac
    | eexists [_; _; _; _; _; _]; tac
    | eexists [_; _; _; _; _; _; _]; tac
    | eexists [_; _; _; _; _; _; _; _]; tac ].

(** The call that raised is the last call of the trace. *)
Ltac raised_by_last_call :=
  right; eexists;
  with_prefix
    ltac:(eexists; split; [reflexivity |]; split; [reflexivity |];
          simpl; rewrite <- ?app_assoc, ?app_nil_r; simpl;
          flatten_histories; use_answers; reflexivity).

(** Two answers to the same call are one answer. *)
Ltac same_answers :=
  repeat match goal with
         | E1 : ?x = Ok ?a, E2 : ?x = Ok ?b |- _ =>
             assert (a = b) by congruence; clear E2;
             first [subst b | subst a]
         end.

(** ** Runs on the example platform *)

Example query_run :
  Demo.query (Some 5) [] =
    (Ok (new_PollableResult (queries_get (Demo.client None)) [1001] (PyInt 15)),
     [EvAPIClient PyNone; EvGetDatabaseId (PyStr "redshift");
      EvDefaultCredential; EvQueriesPost 7 "select 1" 5 (PyInt 42)]).
Proof. reflexivity. Qed.

Example transfer_run :
  Demo.transfer None [] =
    (Ok (new_PollableResult (imports_get_files_runs (Demo.client None))
           [2001; 3001] (PyInt 15)),
     Demo.before_create ++ [Demo.create_call; Demo.sync_call; Demo.run_call]).
Proof. reflexivity. Qed.

Example transfer_run_refused_sync :
  Demo.transfer (Some ConfigureSync) [] =
    (Raise Demo.api_error,
     Demo.before_create ++ [Demo.create_call; Demo.sync_call]).
Proof. reflexivity. Qed.

Example polling_run :
  let f := new_PollableResult (queries_get (Demo.client None)) [1001]
             (PyInt 15) in
  let queued := {| state := Queued; payload := PyNone |} in
  let succeeded := {| state := Succeeded; payload := PyStr "ok" |} in
  do_calls [CallPoll; CallDone; CallResult 5; CallPoll; CallDone] f [] =
    (Ok ([Snapshot queued; IsDone false; Snapshot succeeded;
          Snapshot succeeded; IsDone true],
         observe f succeeded),
     [EvQueriesGet [1001]; EvQueriesGet [1001]; EvSleep (PyInt 15);
      EvQueriesGet [1001]]).
Proof. reflexivity. Qed.

Example polling_out_of_fuel :
  let f := new_PollableResult (queries_get (Demo.client None)) [1001]
             (PyInt 15) in
  fst (do_calls [CallResult 2] f []) =
    Ok ([StillWaiting], observe f {| state := Queued; payload := PyNone |}).
Proof. reflexivity. Qed.

(** ** query_civis *)

(** C6: a call of [query_civis] that returns made exactly one submission
    call, the creation of a query job, and returns a future whose probe
    is the client's query-status call and whose fixed arguments are the
    identifier the platform gave to that job. *)
Theorem query_civis_one_submission srv sql database api_key credential_id
    preview_rows polling_interval h f h' :
  query_civis srv sql database api_key credential_id preview_rows
              polling_interval h = (Ok f, h') ->
  exists client pre database_id cred_id job_id,
    APIClient_r srv h (default PyNone api_key) = Ok client /\
    let post :=
      EvQueriesPost database_id sql (default 10 preview_rows) cred_id in
    h' = h ++ pre ++ [post] /\
    submissions (pre ++ [post]) = [post] /\
    queries_post_r client (h ++ pre) database_id sql
                   (default 10 preview_rows) cred_id = Ok job_id /\
    f = new_PollableResult (queries_get client) [job_id]
          (default (_DEFAULT_POLLING_INTERVAL srv) polling_interval) /\
    forall h0,
      poller f (poller_args f) h0 =
        (queries_get_r client h0 [job_id], h0 ++ [EvQueriesGet [job_id]]).
Proof.
  intros H. run_query H; inversion H; subst; clear H.
  all: match goal with
       | E : queries_post_r ?c (?hh ++ [EvGetDatabaseId _]) ?d _ _ ?cr = Ok ?j
         |- _ =>
           exists c, [EvAPIClient (default PyNone api_key);
                      EvGetDatabaseId database], d, cr, j
       | E : queries_post_r ?c (?hh ++ [EvDefaultCredential]) ?d _ _ ?cr = Ok ?j
         |- _ =>
           exists c, [EvAPIClient (default PyNone api_key);
                      EvGetDatabaseId database; EvDefaultCredential], d, cr, j
       end.
  all: split; [reflexivity |].
  all: flatten_histories.
  all: simpl; rewrite <- ?app_assoc; simpl; repeat split; auto.
Qed.

Lemma query_civis_one_submission_witness :
  exists client pre database_id cred_id job_id,
    APIClient_r Demo.healthy [] (default PyNone None) = Ok client /\
    let post := EvQueriesPost database_id "select 1" (default 10 (Some 5)) cred_id in
    [EvAPIClient PyNone; EvGetDatabaseId (PyInt 7);
     EvQueriesPost 7 "select 1" 5 (PyInt 3)] = [] ++ pre ++ [post] /\
    submissions (pre ++ [post]) = [post] /\
    queries_post_r client ([] ++ pre) database_id "select 1"
                   (default 10 (Some 5)) cred_id = Ok job_id /\
    new_PollableResult (queries_get (Demo.client None)) [1001] (PyInt 15) =
      new_PollableResult (queries_get client) [job_id]
        (default (_DEFAULT_POLLING_INTERVAL Demo.healthy) None) /\
    forall h0,
      poller (new_PollableResult (queries_get (Demo.client None)) [1001]
                (PyInt 15)) [1001] h0 =
        (queries_get_r client h0 [job_id], h0 ++ [EvQueriesGet [job_id]]).
Proof.
  apply (query_civis_one_submission Demo.healthy "select 1" (PyInt 7) None
           (Some (PyInt 3)) (Some 5) None []).
  reflexivity.
Defined.

(** ** transfer_table *)

(** A run of [query_civis] stops at the first call that raises: that
    call is the last one made, its exception is the outcome, and when it
    was not the submission itself, nothing was submitted. *)
Lemma query_civis_run srv sql database api_key credential_id preview_rows
    polling_interval h r h' :
  query_civis srv sql database api_key credential_id preview_rows
              polling_interval h = (r, h') ->
  exists t, h' = h ++ t /\
    forall client,
      APIClient_r srv h (default PyNone api_key) = Ok client ->
      forall ev e,
        call_failed srv client h t ev e ->
        r = Raise e /\ last t = Some ev /\
        (is_submission ev = false -> submissions t = []).
Proof.
  intros H. run_query H; name_trace H.
  all: intros client Hclient; try congruence; the_client client.
  all: intros call_ev err (pre & post & Ht & Hf).
  all: split_trace Ht; subst.
  all: simpl in Hf; rewrite <- ?app_assoc, ?app_nil_r in *; simpl in *.
  all: answers_in Hf; try discriminate Hf.
  all: injection Hf as <-.
  all: repeat split; try reflexivity; simpl; intros; congruence.
Qed.

(** The same for [transfer_table], with the submission steps it got
    through: they are made in the order create-job, configure-sync,
    start-run, and a step that raises is the last call of the run. *)
Lemma transfer_table_run srv source_db dest_db source_table dest_table
    job_name api_key source_credential_id dest_credential_id polling_interval
    advanced_options h r h' :
  transfer_table srv source_db dest_db source_table dest_table job_name
    api_key source_credential_id dest_credential_id polling_interval
    advanced_options h = (r, h') ->
  exists t, h' = h ++ t /\
    steps t `prefix_of` [CreateJob; ConfigureSync; StartRun] /\
    (forall f, r = Ok f -> steps t = [CreateJob; ConfigureSync; StartRun]) /\
    (forall client,
       APIClient_r srv h (default PyNone api_key) = Ok client ->
       stops_at_failure srv client h t r /\
       forall ev e,
         call_failed srv client h t ev e ->
         r = Raise e /\ last t = Some ev /\
         (is_submission ev = false -> submissions t = []) /\
         (forall s, step_of ev = Some s -> steps t = steps_through s)).
Proof.
  intros H. run_transfer H; name_trace H.
  all: split; [simpl; eexists; reflexivity |].
  all: split; [intros f Hf; try discriminate; reflexivity |].
  all: intros client Hclient; try congruence; the_client client.
  all: split; [repeat (simpl; use_answers); auto |].
  all: intros call_ev err (pre & post & Ht & Hf).
  all: split_trace Ht; subst.
  all: simpl in Hf; rewrite <- ?app_assoc, ?app_nil_r in *; simpl in *.
  all: answers_in Hf; try discriminate Hf.
  all: injection Hf as <-.
  all: repeat split; try reflexivity; simpl; intros; simplify_eq; reflexivity.
Qed.



(** A call known to be the last of a run and to have raised. *)
Lemma last_call_failed srv client h pre ev e :
  failure srv client (h ++ pre) ev = Some e ->
  call_failed srv client h (pre ++ [ev]) ev e.
Proof. intros Hf. exists pre, []. auto. Qed.

(** What a run of [transfer_table] with a known trace says about a call
    of that trace that raised. *)
Lemma transfer_table_failed_call srv source_db dest_db source_table
    dest_table job_name api_key source_credential_id dest_credential_id
    polling_interval advanced_options h r t client ev e :
  transfer_table srv source_db dest_db source_table dest_table job_name
    api_key source_credential_id dest_credential_id polling_interval
    advanced_options h = (r, h ++ t) ->
  APIClient_r srv h (default PyNone api_key) = Ok client ->
  call_failed srv client h t ev e ->
  r = Raise e /\ last t = Some ev /\
  (is_submission ev = false -> submissions t = []) /\
  (forall s, step_of ev = Some s -> steps t = steps_through s).
Proof.
  intros H Hclient Hfail.
  apply transfer_table_run in H as (t' & Heq & _ & _ & Hstop).
  apply app_inv_head in Heq as <-.
  by apply (Hstop client Hclient).
Qed.

(** C4, as written, fails: a platform that refuses create-job and one
    that refuses configure-sync, with the same exception, give the caller
    the very same error, of the class the client raised. *)
Lemma transfer_errors_carry_no_step :
  fst (Demo.transfer (Some CreateJob) []) = Raise Demo.api_error /\
  fst (Demo.transfer (Some ConfigureSync) []) = Raise Demo.api_error /\
  exn_class Demo.api_error <> "RemoteRequestError" /\
  ~ step_annotated_errors.
Proof.
  split; [reflexivity |]. split; [reflexivity |]. split; [discriminate |].
  intros [annotation H].
  destruct (H (Demo.platform (Some CreateJob))
              (PyStr "redshift") (PyStr "warehouse") (PyStr "public.src")
              (PyStr "public.dst") None None None None None Demo.options []
              (Raise Demo.api_error) (Demo.before_create ++ [Demo.create_call])
              (Demo.client (Some CreateJob)) Demo.create_call Demo.api_error
              CreateJob)
    as (e1 & He1 & _ & Ha1);
    [reflexivity | reflexivity | reflexivity
    | apply last_call_failed; reflexivity |].
  destruct (H (Demo.platform (Some ConfigureSync))
              (PyStr "redshift") (PyStr "warehouse") (PyStr "public.src")
              (PyStr "public.dst") None None None None None Demo.options []
              (Raise Demo.api_error)
              (Demo.before_create ++ [Demo.create_call] ++ [Demo.sync_call])
              (Demo.client (Some ConfigureSync)) Demo.sync_call Demo.api_error
              ConfigureSync)
    as (e2 & He2 & _ & Ha2);
    [reflexivity | reflexivity | reflexivity
    | rewrite app_assoc; apply last_call_failed; reflexivity |].
  congruence.
Qed.

(** C4, amended: when one of the three submission calls of
    [transfer_table] raises, the caller gets exactly the exception that
    call was answered with, unchanged, and that call is the last one of
    the run. *)
Theorem transfer_table_propagates_step_error srv source_db dest_db
    source_table dest_table job_name api_key source_credential_id
    dest_credential_id polling_interval advanced_options h r t client ev e s :
  transfer_table srv source_db dest_db source_table dest_table job_name
    api_key source_credential_id dest_credential_id polling_interval
    advanced_options h = (r, h ++ t) ->
  APIClient_r srv h (default PyNone api_key) = Ok client ->
  step_of ev = Some s ->
  call_failed srv client h t ev e ->
  r = Raise e /\ last t = Some ev.
Proof.
  intros H Hclient _ Hfail.
  destruct (transfer_table_failed_call _ _ _ _ _ _ _ _ _ _ _ _ _ _ _ _ _
              H Hclient Hfail) as (? & ? & _).
  auto.
Qed.

Lemma transfer_table_propagates_step_error_witness :
  fst (Demo.transfer (Some StartRun) []) = Raise Demo.api_error /\
  last (Demo.before_create ++ [Demo.create_call; Demo.sync_call]
          ++ [Demo.run_call]) = Some Demo.run_call.
Proof.
  apply (transfer_table_propagates_step_error (Demo.platform (Some StartRun))
           (PyStr "redshift") (PyStr "warehouse") (PyStr "public.src")
           (PyStr "public.dst") None None None None None Demo.options []
           _ _ (Demo.client (Some StartRun)) Demo.run_call Demo.api_error
           StartRun).
  - reflexivity.
  - reflexivity.
  - reflexivity.
  - rewrite app_assoc. apply last_call_failed. reflexivity.
Defined.

(** ** What the calls carry *)

(** The query submission of a run of [query_civis], and the whole run
    when it returns. *)
Lemma query_civis_calls srv sql database api_key credential_id preview_rows
    polling_interval h r h' :
  query_civis srv sql database api_key credential_id preview_rows
              polling_interval h = (r, h') ->
  let k := default PyNone api_key in
  let c := default PyNone credential_id in
  exists t, h' = h ++ t /\
    (forall client,
       APIClient_r srv h k = Ok client ->
       forall db q n cred,
         EvQueriesPost db q n cred ∈ t ->
         q = sql /\ n = default 10 preview_rows /\
         (if truthy c then cred = c
          else default_credential_r client
                 (h ++ [EvAPIClient k; EvGetDatabaseId database]) = Ok cred)) /\
    (forall f, r = Ok f ->
       exists client db cred job,
         APIClient_r srv h k = Ok client /\
         t = [EvAPIClient k; EvGetDatabaseId database] ++ default_reads c ++
             [EvQueriesPost db sql (default 10 preview_rows) cred] /\
         f = new_PollableResult (queries_get client) [job]
               (default (_DEFAULT_POLLING_INTERVAL srv) polling_interval)).
Proof.
  intros H k c. subst k c. run_query H; name_trace H.
  all: split;
    [intros client Hclient; try congruence; the_client client;
     intros db q n cred Hin; split_in Hin; simplify_eq;
     flatten_histories; use_answers; simpl; repeat split; eauto |].
  all: intros f Hf; try discriminate Hf; simplify_eq.
  all: unfold default_reads; use_answers; simpl.
  all: eexists _, _, _, _; repeat split; eauto.
Qed.

(** The same for the create-job and configure-sync calls of
    [transfer_table]. *)
Lemma transfer_table_calls srv source_db dest_db source_table dest_table
    job_name api_key source_credential_id dest_credential_id polling_interval
    advanced_options h r h' :
  transfer_table srv source_db dest_db source_table dest_table job_name
    api_key source_credential_id dest_credential_id polling_interval
    advanced_options h = (r, h') ->
  let k := default PyNone api_key in
  let s := default PyNone source_credential_id in
  let d := default PyNone dest_credential_id in
  exists t, h' = h ++ t /\
    (forall id src dst opts,
       EvImportsPostSyncs id src dst opts ∈ t ->
       src = {[ "path" := source_table ]} /\
       dst = {[ "path" := dest_table ]} /\
       opts = advanced_options) /\
    (forall client,
       APIClient_r srv h k = Ok client ->
       forall n ty o src dst,
         EvImportsPost n ty o src dst ∈ t ->
         exists sh dh sc dc,
           ty = "Dbsync" /\ o = true /\
           src = {[ "remote_host_id" := PyInt sh; "credential_id" := sc ]} /\
           dst = {[ "remote_host_id" := PyInt dh; "credential_id" := dc ]} /\
           (if truthy s then sc = s
            else default_credential_r client (h ++ [EvAPIClient k]) = Ok sc) /\
           (if truthy d then dc = d
            else default_credential_r client
                   (h ++ [EvAPIClient k] ++ default_reads s) = Ok dc)) /\
    (forall f, r = Ok f ->
       exists client name sh dh sc dc job run,
         APIClient_r srv h k = Ok client /\
         t = [EvAPIClient k] ++ default_reads s ++ default_reads d ++
             [EvRandomName (default PyNone job_name);
              EvGetDatabaseId source_db; EvGetDatabaseId dest_db;
              EvImportsPost name "Dbsync" true
                {[ "remote_host_id" := PyInt sh; "credential_id" := sc ]}
                {[ "remote_host_id" := PyInt dh; "credential_id" := dc ]};
              EvImportsPostSyncs job {[ "path" := source_table ]}
                {[ "path" := dest_table ]} advanced_options;
              EvImportsPostRuns job] /\
         f = new_PollableResult (imports_get_files_runs client) [job; run]
               (default (_DEFAULT_POLLING_INTERVAL srv) polling_interval)).
Proof.
  intros H k s d. subst k s d. run_transfer H; name_trace H.
  all: split; [intros id src dst opts Hin; split_in Hin; simplify_eq; auto |].
  all: split;
    [intros client Hclient; try congruence; the_client client;
     intros n ty o src dst Hin; split_in Hin; simplify_eq;
     flatten_histories; unfold default_reads; use_answers; simpl;
     eexists _, _, _, _; repeat split; eauto |].
  all: intros f Hf; try discriminate Hf; simplify_eq.
  all: unfold default_reads; use_answers; simpl.
  all: eexists _, _, _, _, _, _, _, _; repeat split; eauto.
Qed.




(** ** Pollable futures *)

Lemma observe_cached f s :
  is_terminal s = true -> cached_terminal (observe f s) = Some s.
Proof. intros Hs. unfold cached_terminal. simpl. by rewrite Hs. Qed.

(** Once cached, a terminal snapshot answers every call, without a probe
    and without a change of the future. *)
Lemma cached_call c f s h :
  cached_terminal f = Some s ->
  do_call c f h = (Ok (cached_answer c s, f), h).
Proof.
  intros Hc. destruct c as [| fuel |]; simpl.
  - unfold poll_once, bind, ret. by rewrite Hc.
  - unfold bind, ret. destruct fuel; simpl; by rewrite Hc.
  - unfold done_check, bind, ret. by rewrite Hc.
Qed.

Lemma cached_calls cs f s h :
  cached_terminal f = Some s ->
  do_calls cs f h = (Ok ((fun c => cached_answer c s) <$> cs, f), h).
Proof.
  intros Hc. induction cs as [| c cs IH]; [done |].
  simpl. unfold bind at 1. rewrite (cached_call c f s h Hc). simpl.
  unfold bind at 1. rewrite IH. done.
Qed.

Lemma poll_once_observed f h s f' h' :
  poll_once f h = (Ok (s, f'), h') ->
  is_terminal s = true -> cached_terminal f' = Some s.
Proof.
  unfold poll_once. destruct (cached_terminal f) as [s0 |] eqn:Hc.
  - intros [= <- <- <-] _. done.
  - unfold bind, ret. destruct (poller f (poller_args f) h) as [[s0 | e] h0].
    + intros [= <- <- <-]. apply observe_cached.
    + discriminate.
Qed.

Lemma result_loop_observed fuel f h s f' h' :
  result_loop fuel f h = (Ok (Some s, f'), h') -> cached_terminal f' = Some s.
Proof.
  revert f h. induction fuel as [| fuel IH]; intros f h; simpl.
  - destruct (cached_terminal f) as [s0 |] eqn:Hc; unfold ret.
    + by intros [= <- <-].
    + discriminate.
  - destruct (cached_terminal f) as [s0 |] eqn:Hc; unfold ret.
    + by intros [= <- <-].
    + unfold bind at 1.
      destruct (poll_once f h) as [[[s1 f1] | e] h1] eqn:Hp; [| discriminate].
      simpl. destruct (is_terminal s1) eqn:Hs1.
      * intros [= <- <- <-]. eapply poll_once_observed; eauto.
      * unfold bind, sleep, call. apply IH.
Qed.

Lemma call_observed c f h a f' h' s :
  do_call c f h = (Ok (a, f'), h') ->
  a = Snapshot s -> is_terminal s = true -> cached_terminal f' = Some s.
Proof.
  destruct c as [| fuel |]; simpl; unfold bind, ret.
  - destruct (poll_once f h) as [[[s1 f1] | e] h1] eqn:Hp; [| discriminate].
    simpl. intros [= <- <- <-] [= <-] Hs. eapply poll_once_observed; eauto.
  - destruct (result_loop fuel f h) as [[[[s1 |] f1] | e] h1] eqn:Hp;
      simpl; try discriminate.
    + intros [= <- <- <-] [= <-] _. eapply result_loop_observed; eauto.
    + intros [= <- <- <-]. discriminate.
  - unfold done_check, ret. intros [= <- <- <-]. discriminate.
Qed.

Lemma calls_observed cs f h answers f' h' s :
  do_calls cs f h = (Ok (answers, f'), h') ->
  Snapshot s ∈ answers -> is_terminal s = true ->
  cached_terminal f' = Some s.
Proof.
  revert f h answers. induction cs as [| c cs IH]; intros f h answers; simpl.
  - unfold ret. intros [= <- <- <-] Hin. by apply elem_of_nil in Hin.
  - unfold bind at 1.
    destruct (do_call c f h) as [[[a f1] | e] h1] eqn:Hc; [| discriminate].
    unfold bind at 1. simpl.
    destruct (do_calls cs f1 h1) as [[[rest f2] | e] h2] eqn:Hcs;
      [| discriminate].
    unfold ret. simpl. intros [= <- <- <-] Hin Hs.
    apply elem_of_cons in Hin as [Ha | Hin].
    + pose proof (call_observed _ _ _ _ _ _ _ Hc (eq_sym Ha) Hs) as Hf1.
      rewrite (cached_calls cs f1 s h1 Hf1) in Hcs.
      by injection Hcs as _ <- _.
    + eapply IH; eauto.
Qed.

Lemma observe_probe_logs f s : probe_logs f -> probe_logs (observe f s).
Proof. intros Hf args h. apply (Hf args h). Qed.

Lemma polling_app (t1 t2 : list event) :
  forallb is_polling_event t1 = true -> forallb is_polling_event t2 = true ->
  forallb is_polling_event (t1 ++ t2) = true.
Proof. intros H1 H2. rewrite forallb_app, H1, H2. done. Qed.

Lemma status_probe_polling ev :
  is_status_probe ev = true -> is_polling_event ev = true.
Proof. by destruct ev. Qed.

(** What one "poll once" adds to the history. *)
Lemma poll_once_trace f h r h' :
  probe_logs f ->
  poll_once f h = (r, h') ->
  exists t, h' = h ++ t /\ forallb is_polling_event t = true /\
    forall s f', r = Ok (s, f') -> probe_logs f'.
Proof.
  intros Hf. unfold poll_once. destruct (cached_terminal f) as [s0 |].
  - intros [= <- <-]. exists []. rewrite app_nil_r.
    repeat split; auto. by intros ? ? [= _ <-].
  - unfold bind, ret. destruct (Hf (poller_args f) h) as (r0 & ev & -> & Hev).
    intros Hrun. exists [ev]. destruct r0 as [s0 | e]; injection Hrun as <- <-.
    + repeat split; [simpl; by rewrite (status_probe_polling _ Hev) |].
      intros ? ? [= _ <-]. by apply observe_probe_logs.
    + repeat split; [simpl; by rewrite (status_probe_polling _ Hev) |].
      discriminate.
Qed.

Lemma result_loop_trace fuel f h r h' :
  probe_logs f ->
  result_loop fuel f h = (r, h') ->
  exists t, h' = h ++ t /\ forallb is_polling_event t = true /\
    forall s f', r = Ok (s, f') -> probe_logs f'.
Proof.
  revert f h. induction fuel as [| fuel IH]; intros f h Hf; simpl.
  - intros Hrun. exists []. rewrite app_nil_r.
    destruct (cached_terminal f); injection Hrun as <- <-;
      repeat split; auto; by intros ? ? [= _ <-].
  - destruct (cached_terminal f) as [s0 |].
    { intros [= <- <-]. exists []. rewrite app_nil_r.
      repeat split; auto. by intros ? ? [= _ <-]. }
    unfold bind at 1.
    destruct (poll_once f h) as [[[s1 f1] | e] h1] eqn:Hp.
    + destruct (poll_once_trace _ _ _ _ Hf Hp) as (t1 & -> & Ht1 & Hf1).
      specialize (Hf1 s1 f1 eq_refl). simpl.
      destruct (is_terminal s1).
      * intros [= <- <-]. exists t1. repeat split; auto.
        by intros ? ? [= _ <-].
      * unfold bind at 1, sleep, call. simpl. intros Hloop.
        destruct (IH _ _ Hf1 Hloop) as (t2 & -> & Ht2 & Hf2).
        exists (t1 ++ [EvSleep (polling_interval f1)] ++ t2).
        rewrite <- !app_assoc. repeat split; auto.
        apply polling_app; [done |]. by apply polling_app.
    + destruct (poll_once_trace _ _ _ _ Hf Hp) as (t1 & -> & Ht1 & _).
      intros [= <- <-]. exists t1. repeat split; auto. discriminate.
Qed.

Lemma do_call_trace c f h r h' :
  probe_logs f ->
  do_call c f h = (r, h') ->
  exists t, h' = h ++ t /\ forallb is_polling_event t = true /\
    forall a f', r = Ok (a, f') -> probe_logs f'.
Proof.
  intros Hf. destruct c as [| fuel |]; simpl; unfold bind, ret.
  - destruct (poll_once f h) as [[[s1 f1] | e] h1] eqn:Hp;
      destruct (poll_once_trace _ _ _ _ Hf Hp) as (t1 & -> & Ht1 & Hf1);
      intros [= <- <-]; exists t1; repeat split; auto; [| discriminate].
    intros ? ? [= _ <-]. eauto.
  - destruct (result_loop fuel f h) as [[[s1 f1] | e] h1] eqn:Hp;
      destruct (result_loop_trace _ _ _ _ _ Hf Hp) as (t1 & -> & Ht1 & Hf1);
      intros [= <- <-]; exists t1; repeat split; auto; [| discriminate].
    intros ? ? [= _ <-]. eauto.
  - unfold done_check, ret. intros [= <- <-]. exists []. rewrite app_nil_r.
    repeat split; auto. by intros ? ? [= _ <-].
Qed.

(** Whatever calls are made on a future whose probe logs a status call,
    the history only grows by status probes and waits. *)
Lemma do_calls_trace cs f h r h' :
  probe_logs f ->
  do_calls cs f h = (r, h') ->
  exists t, h' = h ++ t /\ forallb is_polling_event t = true.
Proof.
  revert f h r h'. induction cs as [| c cs IH]; intros f h r h' Hf; simpl.
  - intros [= <- <-]. exists []. by rewrite app_nil_r.
  - unfold bind at 1.
    destruct (do_call c f h) as [[[a f1] | e] h1] eqn:Hc;
      destruct (do_call_trace _ _ _ _ _ Hf Hc) as (t1 & -> & Ht1 & Hf1).
    + specialize (Hf1 a f1 eq_refl). unfold bind at 1. simpl.
      destruct (do_calls cs f1 (h ++ t1)) as [[[rest f2] | e] h2] eqn:Hcs;
        destruct (IH _ _ _ _ Hf1 Hcs) as (t2 & -> & Ht2);
        intros [= <- <-]; exists (t1 ++ t2); rewrite <- app_assoc;
        split; auto using polling_app.
    + intros [= <- <-]. eauto.
Qed.

Lemma polling_reads_nothing (t : list event) :
  forallb is_polling_event t = true -> default_credential_reads t = 0%nat.
Proof.
  unfold default_credential_reads. induction t as [| ev t IH]; [done |].
  simpl. intros [Hev Ht]%andb_prop. destruct ev; try discriminate; simpl; auto.
Qed.

Lemma queries_get_logs client args interval :
  probe_logs (new_PollableResult (queries_get client) args interval).
Proof. intros a h. simpl. unfold queries_get, call. eauto. Qed.

Lemma imports_get_files_runs_logs client args interval :
  probe_logs (new_PollableResult (imports_get_files_runs client) args interval).
Proof. intros a h. simpl. unfold imports_get_files_runs, call. eauto. Qed.

(** ** Reading the default credential *)

(** C7, as written, fails: a transfer that leaves out both credentials
    reads the default credential twice. *)
Lemma transfer_reads_default_credential_twice :
  default_credential_reads (snd (Demo.transfer None [])) = 2%nat /\
  ~ default_credential_read_once Demo.healthy (PyStr "redshift")
      (PyStr "warehouse") (PyStr "public.src") (PyStr "public.dst")
      None None None None None Demo.options [].
Proof.
  split; [reflexivity |]. intros Hclaim.
  specialize (Hclaim (or_introl eq_refl) _ _ eq_refl).
  vm_compute in Hclaim. discriminate Hclaim.
Qed.

Lemma reads_of_default_reads c :
  default_credential_reads (default_reads c) = if truthy c then 0%nat else 1%nat.
Proof. unfold default_reads. by destruct (truthy c). Qed.

Lemma default_credential_reads_app t1 t2 :
  default_credential_reads (t1 ++ t2) =
    (default_credential_reads t1 + default_credential_reads t2)%nat.
Proof.
  unfold default_credential_reads. by rewrite List.filter_app, length_app.
Qed.

(** C7, amended: a submission that returns has read the default
    credential once for each credential that was left out (or is falsy)
    and not at all for one that was given: at most once in [query_civis],
    and once per side in [transfer_table].  The reads are made by the
    submission: whatever is then called on the returned future, the
    history only grows by status probes and waits. *)
Theorem default_credential_read_per_omitted_reference :
  (forall srv sql database api_key credential_id preview_rows
          polling_interval h f t,
     query_civis srv sql database api_key credential_id preview_rows
                 polling_interval h = (Ok f, h ++ t) ->
     default_credential_reads t =
       (if truthy (default PyNone credential_id) then 0%nat else 1%nat) /\
     forall cs h0 r1 h1,
       do_calls cs f h0 = (r1, h1) ->
       exists t1, h1 = h0 ++ t1 /\ forallb is_polling_event t1 = true /\
                  default_credential_reads t1 = 0%nat) /\
  (forall srv source_db dest_db source_table dest_table job_name api_key
          source_credential_id dest_credential_id polling_interval
          advanced_options h f t,
     transfer_table srv source_db dest_db source_table dest_table job_name
       api_key source_credential_id dest_credential_id polling_interval
       advanced_options h = (Ok f, h ++ t) ->
     default_credential_reads t =
       ((if truthy (default PyNone source_credential_id) then 0 else 1) +
        (if truthy (default PyNone dest_credential_id) then 0 else 1))%nat /\
     forall cs h0 r1 h1,
       do_calls cs f h0 = (r1, h1) ->
       exists t1, h1 = h0 ++ t1 /\ forallb is_polling_event t1 = true /\
                  default_credential_reads t1 = 0%nat).
Proof.
  split.
  - intros * H.
    pose proof (query_civis_calls _ _ _ _ _ _ _ _ _ _ H) as (t' & Heq & _ & Hok).
    apply app_inv_head in Heq as <-.
    destruct (Hok f eq_refl) as (client & db & cred & job & _ & -> & ->).
    split.
    + rewrite !default_credential_reads_app, reads_of_default_reads.
      unfold default_credential_reads. simpl. lia.
    + intros cs h0 r1 h1 Hcalls.
      destruct (do_calls_trace _ _ _ _ _ (queries_get_logs _ _ _) Hcalls)
        as (t1 & -> & Ht1).
      exists t1. auto using polling_reads_nothing.
  - intros * H.
    pose proof (transfer_table_calls _ _ _ _ _ _ _ _ _ _ _ _ _ _ H)
      as (t' & Heq & _ & _ & Hok).
    apply app_inv_head in Heq as <-.
    destruct (Hok f eq_refl)
      as (client & name & sh & dh & sc & dc & job & run & _ & -> & ->).
    split.
    + rewrite !default_credential_reads_app, !reads_of_default_reads.
      unfold default_credential_reads. simpl. lia.
    + intros cs h0 r1 h1 Hcalls.
      destruct (do_calls_trace _ _ _ _ _
                  (imports_get_files_runs_logs _ _ _) Hcalls)
        as (t1 & -> & Ht1).
      exists t1. auto using polling_reads_nothing.
Qed.

Lemma default_credential_read_per_omitted_reference_witness :
  (default_credential_reads
     [EvAPIClient PyNone; EvGetDatabaseId (PyStr "redshift");
      EvDefaultCredential; EvQueriesPost 7 "select 1" 10 (PyInt 42)] =
     (if truthy (default PyNone None) then 0%nat else 1%nat) /\
   forall cs h0 r1 h1,
     do_calls cs (new_PollableResult (queries_get (Demo.client None)) [1001]
                    (PyInt 15)) h0 = (r1, h1) ->
     exists t1, h1 = h0 ++ t1 /\ forallb is_polling_event t1 = true /\
                default_credential_reads t1 = 0%nat) /\
  (default_credential_reads
     [EvAPIClient PyNone; EvDefaultCredential; EvRandomName PyNone;
      EvGetDatabaseId (PyStr "redshift"); EvGetDatabaseId (PyStr "warehouse");
      EvImportsPost (PyStr "f3a9c1d2") "Dbsync" true
        {[ "remote_host_id" := PyInt 7; "credential_id" := PyInt 42 ]}
        {[ "remote_host_id" := PyInt 8; "credential_id" := PyStr "etl" ]};
      Demo.sync_call; Demo.run_call] =
     ((if truthy (default PyNone None) then 0 else 1) +
      (if truthy (default PyNone (Some (PyStr "etl"))) then 0 else 1))%nat /\
   forall cs h0 r1 h1,
     do_calls cs (new_PollableResult
                    (imports_get_files_runs (Demo.client None)) [2001; 3001]
                    (PyInt 15)) h0 = (r1, h1) ->
     exists t1, h1 = h0 ++ t1 /\ forallb is_polling_event t1 = true /\
                default_credential_reads t1 = 0%nat).
Proof.
  split.
  - apply (proj1 default_credential_read_per_omitted_reference Demo.healthy
             "select 1" (PyStr "redshift") None None None None []).
    reflexivity.
  - apply (proj2 default_credential_read_per_omitted_reference Demo.healthy
             (PyStr "redshift") (PyStr "warehouse") (PyStr "public.src")
             (PyStr "public.dst") None None None (Some (PyStr "etl")) None
             Demo.options []).
    reflexivity.
Defined.

(** ** The caching law *)

(** C2: once one of the calls made on a future returned by [query_civis]
    or [transfer_table] has answered with a terminal snapshot, every
    later "poll once" and "result" call answers with that same snapshot
    and every "done" call answers true, the history is left as it is (no
    probe is made) and so is the future. *)
Theorem terminal_snapshot_is_cached srv f before h0 answers f1 h1 s :
  returned_by srv f ->
  do_calls before f h0 = (Ok (answers, f1), h1) ->
  Snapshot s ∈ answers ->
  is_terminal s = true ->
  forall after h2,
    do_calls after f1 h2 =
      (Ok ((fun c => cached_answer c s) <$> after, f1), h2).
Proof.
  intros _ Hrun Hin Hs after h2.
  apply cached_calls. eapply calls_observed; eauto.
Qed.

Lemma terminal_snapshot_is_cached_witness :
  let f := new_PollableResult (queries_get (Demo.client None)) [1001]
             (PyInt 15) in
  let s := {| state := Succeeded; payload := PyStr "ok" |} in
  let h2 := snd (Demo.query None []) ++
            [EvQueriesGet [1001]; EvQueriesGet [1001]; EvSleep (PyInt 15);
             EvQueriesGet [1001]] in
  do_calls [CallPoll; CallResult 3; CallDone] (observe f s) h2 =
    (Ok ((fun c => cached_answer c s) <$> [CallPoll; CallResult 3; CallDone],
         observe f s), h2).
Proof.
  intros f s h2.
  apply (terminal_snapshot_is_cached Demo.healthy f
           [CallPoll; CallDone; CallResult 5]
           (snd (Demo.query None []))
           [Snapshot {| state := Queued; payload := PyNone |};
            IsDone false; Snapshot s]
           (observe f s) h2 s).
  - left. exists "select 1", (PyStr "redshift"), None, None, None, None, [].
    eexists. reflexivity.
  - reflexivity.
  - apply list_elem_of_In. simpl. auto.
  - reflexivity.
Defined.

(** * Further properties of the two functions *)

(** ** The shape of a run *)

(** Everything that is used below about a run of [query_civis]. *)
Lemma query_civis_anatomy srv sql database api_key credential_id preview_rows
    polling_interval h r h' :
  query_civis srv sql database api_key credential_id preview_rows
              polling_interval h = (r, h') ->
  let k := default PyNone api_key in
  let c := default PyNone credential_id in
  exists t, h' = h ++ t /\
    (exists rest, t = EvAPIClient k :: rest /\
       (forall k', EvAPIClient k' ∉ rest) /\
       (forall e, APIClient_r srv h k = Raise e -> rest = [] /\ r = Raise e)) /\
    (forall e, r = Raise e ->
       APIClient_r srv h k = Raise e \/
       exists client pre ev,
         APIClient_r srv h k = Ok client /\ t = pre ++ [ev] /\
         failure srv client (h ++ pre) ev = Some e) /\
    (default_credential_reads t <= if truthy c then 0 else 1)%nat /\
    (forall client e,
       APIClient_r srv h k = Ok client ->
       get_database_id_r client (h ++ [EvAPIClient k]) database = Raise e ->
       t = [EvAPIClient k; EvGetDatabaseId database] /\ r = Raise e) /\
    (forall client,
       APIClient_r srv h k = Ok client ->
       forall db q m cred,
         EvQueriesPost db q m cred ∈ t ->
         get_database_id_r client (h ++ [EvAPIClient k]) database = Ok db /\
         q = sql /\ m = default 10 preview_rows /\
         (truthy c = true -> cred = c)) /\
    (length t <= 4)%nat /\
    forallb (fun ev => negb (is_polling_event ev)) t = true.
Proof.
  intros H k c. subst k c. run_query H; name_trace H.
  all: split;
    [eexists; split; [reflexivity |]; split;
     [intros k' Hin; split_in Hin
     | intros err Herr; try congruence; simplify_eq; auto] |].
  all: split;
    [intros err Herr; try discriminate Herr; simplify_eq;
     first [by left | raised_by_last_call] |].
  all: split; [unfold default_credential_reads; simpl; lia |].
  all: split;
    [intros client err Hclient Hfail; first [congruence | the_client client];
     flatten_histories;
     first [congruence | split; [reflexivity | congruence]] |].
  all: split;
    [intros client Hclient; try congruence; the_client client;
     intros db q m cred Hin; split_in Hin; simplify_eq;
     flatten_histories; repeat split; auto; congruence |].
  all: split; [simpl; lia | reflexivity].
Qed.

(** The same for a run of [transfer_table]. *)
Lemma transfer_table_anatomy srv source_db dest_db source_table dest_table
    job_name api_key source_credential_id dest_credential_id polling_interval
    advanced_options h r h' :
  transfer_table srv source_db dest_db source_table dest_table job_name
    api_key source_credential_id dest_credential_id polling_interval
    advanced_options h = (r, h') ->
  let k := default PyNone api_key in
  let s := default PyNone source_credential_id in
  let d := default PyNone dest_credential_id in
  let jn := default PyNone job_name in
  let falsy := ((if truthy s then 0 else 1) + (if truthy d then 0 else 1))%nat in
  let start := [EvAPIClient k] ++ default_reads s ++ default_reads d in
  exists t, h' = h ++ t /\
    (exists rest, t = EvAPIClient k :: rest /\
       (forall k', EvAPIClient k' ∉ rest) /\
       (forall e, APIClient_r srv h k = Raise e -> rest = [] /\ r = Raise e)) /\
    (forall e, r = Raise e ->
       APIClient_r srv h k = Raise e \/
       exists client pre ev,
         APIClient_r srv h k = Ok client /\ t = pre ++ [ev] /\
         failure srv client (h ++ pre) ev = Some e) /\
    (default_credential_reads t <= falsy)%nat /\
    (forall db, EvGetDatabaseId db ∈ t ->
       default_credential_reads t = falsy /\ EvRandomName jn ∈ t) /\
    (resolutions t `prefix_of`
       [EvGetDatabaseId source_db; EvGetDatabaseId dest_db]) /\
    (forall client,
       APIClient_r srv h k = Ok client ->
       forall n ty o src dst,
         EvImportsPost n ty o src dst ∈ t ->
         exists sh dh sc dc,
           maybe_get_random_name_r srv (h ++ start) jn = Ok n /\
           get_database_id_r client (h ++ start ++ [EvRandomName jn])
             source_db = Ok sh /\
           get_database_id_r client
             (h ++ start ++ [EvRandomName jn; EvGetDatabaseId source_db])
             dest_db = Ok dh /\
           ty = "Dbsync" /\ o = true /\
           src = {[ "remote_host_id" := PyInt sh; "credential_id" := sc ]} /\
           dst = {[ "remote_host_id" := PyInt dh; "credential_id" := dc ]} /\
           resolutions t =
             [EvGetDatabaseId source_db; EvGetDatabaseId dest_db]) /\
    (forall f, r = Ok f ->
       exists client pre n src dst job run,
         let create := EvImportsPost n "Dbsync" true src dst in
         let sync := EvImportsPostSyncs job {[ "path" := source_table ]}
                       {[ "path" := dest_table ]} advanced_options in
         APIClient_r srv h k = Ok client /\
         t = pre ++ [create; sync; EvImportsPostRuns job] /\
         submissions pre = [] /\
         imports_post_r client (h ++ pre) n "Dbsync" true src dst = Ok job /\
         imports_post_runs_r client (h ++ pre ++ [create; sync]) job = Ok run /\
         f = new_PollableResult (imports_get_files_runs client) [job; run]
               (default (_DEFAULT_POLLING_INTERVAL srv) polling_interval)) /\
    (length t <= 9)%nat /\
    forallb (fun ev => negb (is_polling_event ev)) t = true.
Proof.
  intros H k s d jn falsy start. subst k s d jn falsy start.
  run_transfer H; name_trace H.
  all: split;
    [eexists; split; [reflexivity |]; split;
     [intros k' Hin; split_in Hin
     | intros err Herr; try congruence; simplify_eq; auto] |].
  all: split;
    [intros err Herr; try discriminate Herr; simplify_eq;
     first [by left | raised_by_last_call] |].
  all: use_answers.
  all: split; [unfold default_credential_reads; simpl; lia |].
  all: split;
    [intros db Hin; split_in Hin;
     (split; [reflexivity | apply list_elem_of_In; simpl; auto 10]) |].
  all: split; [simpl; eexists; reflexivity |].
  all: split;
    [intros client Hclient; first [congruence | the_client client];
     intros n ty o src dst Hin; split_in Hin; simplify_eq;
     flatten_histories; unfold default_reads; use_answers; simpl;
     eexists _, _, _, _; repeat split; eauto |].
  all: split;
    [intros f Hf; try discriminate Hf; simplify_eq;
     eexists; with_prefix
       ltac:(eexists _, _, _, _, _; simpl;
             split; [reflexivity |]; split; [reflexivity |];
             split; [reflexivity |];
             rewrite <- ?app_assoc; simpl; flatten_histories;
             split; [eassumption |]; split; [eassumption | reflexivity]) |].
  all: split; [simpl; lia | reflexivity].
Qed.

(** ** Errors, order and arguments of the calls *)

(** X1: [query_civis] raises no error of its own.  When it raises, the
    exception is the one with which its last call was answered (the
    construction of the client included); and when none of the calls it
    makes is answered with an exception, it returns a future. *)
Theorem query_civis_raises_only_call_errors srv sql database api_key
    credential_id preview_rows polling_interval h r t :
  query_civis srv sql database api_key credential_id preview_rows
              polling_interval h = (r, h ++ t) ->
  (forall e, r = Raise e ->
     APIClient_r srv h (default PyNone api_key) = Raise e \/
     exists client pre ev,
       APIClient_r srv h (default PyNone api_key) = Ok client /\
       t = pre ++ [ev] /\ failure srv client (h ++ pre) ev = Some e) /\
  (forall client,
     APIClient_r srv h (default PyNone api_key) = Ok client ->
     (forall pre ev post,
        t = pre ++ ev :: post -> failure srv client (h ++ pre) ev = None) ->
     exists f, r = Ok f).
Proof.
  intros H.
  pose proof (query_civis_anatomy _ _ _ _ _ _ _ _ _ _ H)
    as (t' & Heq & _ & Hraise & _).
  apply app_inv_head in Heq as <-. split; [exact Hraise |].
  intros client Hclient Hnone. destruct r as [f | e]; [eauto |].
  destruct (Hraise e eq_refl) as [Hctor | (c & pre & ev & Hc & -> & Hf)].
  - congruence.
  - assert (client = c) by congruence; subst c.
    rewrite (Hnone pre ev [] eq_refl) in Hf. discriminate Hf.
Qed.

Lemma query_civis_raises_only_call_errors_witness :
  exists f, fst (Demo.query None []) = Ok f.
Proof.
  apply (proj2 (query_civis_raises_only_call_errors Demo.healthy "select 1"
                  (PyStr "redshift") None None None None []
                  (fst (Demo.query None []))
                  [EvAPIClient PyNone; EvGetDatabaseId (PyStr "redshift");
                   EvDefaultCredential;
                   EvQueriesPost 7 "select 1" 10 (PyInt 42)]
                  eq_refl) (Demo.client None)).
  - reflexivity.
  - intros pre ev post Ht. split_trace Ht; subst; reflexivity.
Defined.

(** X2: [transfer_table] raises no error of its own either.  When it
    raises, the exception is the one with which its last call was
    answered (the construction of the client included); and when none of
    the calls it makes is answered with an exception, it returns a
    future. *)
Theorem transfer_table_raises_only_call_errors srv source_db dest_db
    source_table dest_table job_name api_key source_credential_id
    dest_credential_id polling_interval advanced_options h r t :
  transfer_table srv source_db dest_db source_table dest_table job_name
    api_key source_credential_id dest_credential_id polling_interval
    advanced_options h = (r, h ++ t) ->
  (forall e, r = Raise e ->
     APIClient_r srv h (default PyNone api_key) = Raise e \/
     exists client pre ev,
       APIClient_r srv h (default PyNone api_key) = Ok client /\
       t = pre ++ [ev] /\ failure srv client (h ++ pre) ev = Some e) /\
  (forall client,
     APIClient_r srv h (default PyNone api_key) = Ok client ->
     (forall pre ev post,
        t = pre ++ ev :: post -> failure srv client (h ++ pre) ev = None) ->
     exists f, r = Ok f).
Proof.
  intros H.
  pose proof (transfer_table_anatomy _ _ _ _ _ _ _ _ _ _ _ _ _ _ H)
    as (t' & Heq & _ & Hraise & _).
  apply app_inv_head in Heq as <-. split; [exact Hraise |].
  intros client Hclient Hnone. destruct r as [f | e]; [eauto |].
  destruct (Hraise e eq_refl) as [Hctor | (c & pre & ev & Hc & -> & Hf)].
  - congruence.
  - assert (client = c) by congruence; subst c.
    rewrite (Hnone pre ev [] eq_refl) in Hf. discriminate Hf.
Qed.

Lemma transfer_table_raises_only_call_errors_witness :
  APIClient_r (Demo.platform (Some StartRun)) [] (default PyNone None)
    = Raise Demo.api_error \/
  exists client pre ev,
    APIClient_r (Demo.platform (Some StartRun)) [] (default PyNone None)
      = Ok client /\
    snd (Demo.transfer (Some StartRun) []) = pre ++ [ev] /\
    failure (Demo.platform (Some StartRun)) client ([] ++ pre) ev
      = Some Demo.api_error.
Proof.
  apply (proj1 (transfer_table_raises_only_call_errors
                  (Demo.platform (Some StartRun)) (PyStr "redshift")
                  (PyStr "warehouse") (PyStr "public.src")
                  (PyStr "public.dst") None None None None None Demo.options
                  [] (Raise Demo.api_error)
                  (snd (Demo.transfer (Some StartRun) [])) eq_refl)
           Demo.api_error).
  reflexivity.
Defined.

(** X3: [query_civis] resolves the database before it looks at the
    credential: when the resolution raises, the run consists of the
    construction of the client and that look-up, so the default
    credential is not read and nothing is submitted. *)
Theorem query_civis_resolves_before_credential srv sql database api_key
    credential_id preview_rows polling_interval h r t client e :
  query_civis srv sql database api_key credential_id preview_rows
              polling_interval h = (r, h ++ t) ->
  APIClient_r srv h (default PyNone api_key) = Ok client ->
  get_database_id_r client (h ++ [EvAPIClient (default PyNone api_key)])
                    database = Raise e ->
  t = [EvAPIClient (default PyNone api_key); EvGetDatabaseId database] /\
  r = Raise e.
Proof.
  intros H Hclient Hfail.
  pose proof (query_civis_anatomy _ _ _ _ _ _ _ _ _ _ H)
    as (t' & Heq & _ & _ & _ & Hres & _).
  apply app_inv_head in Heq as <-. eauto.
Qed.

Lemma query_civis_resolves_before_credential_witness :
  snd (query_civis Demo.healthy "select 1" (PyStr "nonexistent_db") None None
         None None []) =
    [EvAPIClient (default PyNone None);
     EvGetDatabaseId (PyStr "nonexistent_db")] /\
  fst (query_civis Demo.healthy "select 1" (PyStr "nonexistent_db") None None
         None None []) = Raise (NotFound "nonexistent_db").
Proof.
  apply (query_civis_resolves_before_credential Demo.healthy "select 1"
           (PyStr "nonexistent_db") None None None None [] _ _
           (Demo.client None) (NotFound "nonexistent_db")).
  - reflexivity.
  - reflexivity.
  - reflexivity.
Defined.

(** X4: [transfer_table] settles the credentials and the job name before
    it resolves a database: in a run that looked a database up, the
    default credential has been read once for each falsy credential and
    the job-name helper has been called, also when the look-up then
    raises. *)
Theorem transfer_table_reads_credentials_before_resolving srv source_db
    dest_db source_table dest_table job_name api_key source_credential_id
    dest_credential_id polling_interval advanced_options h r t db :
  transfer_table srv source_db dest_db source_table dest_table job_name
    api_key source_credential_id dest_credential_id polling_interval
    advanced_options h = (r, h ++ t) ->
  EvGetDatabaseId db ∈ t ->
  default_credential_reads t =
    ((if truthy (default PyNone source_credential_id) then 0 else 1) +
     (if truthy (default PyNone dest_credential_id) then 0 else 1))%nat /\
  EvRandomName (default PyNone job_name) ∈ t.
Proof.
  intros H Hin.
  pose proof (transfer_table_anatomy _ _ _ _ _ _ _ _ _ _ _ _ _ _ H)
    as (t' & Heq & _ & _ & _ & Hres & _).
  apply app_inv_head in Heq as <-. eauto.
Qed.

Lemma transfer_table_reads_credentials_before_resolving_witness :
  default_credential_reads
    (snd (transfer_table Demo.healthy (PyStr "redshift")
            (PyStr "nonexistent_db") (PyStr "public.src") (PyStr "public.dst")
            None None None None None Demo.options [])) =
    ((if truthy (default PyNone None) then 0 else 1) +
     (if truthy (default PyNone None) then 0 else 1))%nat /\
  EvRandomName (default PyNone None) ∈
    snd (transfer_table Demo.healthy (PyStr "redshift")
           (PyStr "nonexistent_db") (PyStr "public.src") (PyStr "public.dst")
           None None None None None Demo.options []).
Proof.
  apply (transfer_table_reads_credentials_before_resolving Demo.healthy
           (PyStr "redshift") (PyStr "nonexistent_db") (PyStr "public.src")
           (PyStr "public.dst") None None None None None Demo.options []
           (Raise (NotFound "nonexistent_db")) _ (PyStr "nonexistent_db")).
  - reflexivity.
  - apply list_elem_of_In. vm_compute. auto 10.
Defined.

(** X5: in every run, also one that raises, the default credential is
    read at most once per falsy credential: at most once by
    [query_civis], at most twice by [transfer_table], and never when the
    credentials given are truthy. *)
Theorem default_credential_reads_bounded :
  (forall srv sql database api_key credential_id preview_rows
          polling_interval h r t,
     query_civis srv sql database api_key credential_id preview_rows
                 polling_interval h = (r, h ++ t) ->
     (default_credential_reads t <=
        if truthy (default PyNone credential_id) then 0 else 1)%nat) /\
  (forall srv source_db dest_db source_table dest_table job_name api_key
          source_credential_id dest_credential_id polling_interval
          advanced_options h r t,
     transfer_table srv source_db dest_db source_table dest_table job_name
       api_key source_credential_id dest_credential_id polling_interval
       advanced_options h = (r, h ++ t) ->
     (default_credential_reads t <=
        (if truthy (default PyNone source_credential_id) then 0 else 1) +
        (if truthy (default PyNone dest_credential_id) then 0 else 1))%nat).
Proof.
  split.
  - intros * H.
    pose proof (query_civis_anatomy _ _ _ _ _ _ _ _ _ _ H)
      as (t' & Heq & _ & _ & Hreads & _).
    by apply app_inv_head in Heq as <-.
  - intros * H.
    pose proof (transfer_table_anatomy _ _ _ _ _ _ _ _ _ _ _ _ _ _ H)
      as (t' & Heq & _ & _ & Hreads & _).
    by apply app_inv_head in Heq as <-.
Qed.

Lemma default_credential_reads_bounded_witness :
  (default_credential_reads
     (snd (query_civis Demo.healthy "select 1" (PyStr "redshift") None
             (Some (PyInt 3)) None None [])) <=
     if truthy (default PyNone (Some (PyInt 3))) then 0 else 1)%nat /\
  (default_credential_reads (snd (Demo.transfer (Some CreateJob) [])) <=
     (if truthy (default PyNone None) then 0 else 1) +
     (if truthy (default PyNone None) then 0 else 1))%nat.
Proof.
  split.
  - apply (proj1 default_credential_reads_bounded Demo.healthy "select 1"
             (PyStr "redshift") None (Some (PyInt 3)) None None []
             (fst (query_civis Demo.healthy "select 1" (PyStr "redshift") None
                     (Some (PyInt 3)) None None []))).
    reflexivity.
  - apply (proj2 default_credential_reads_bounded
             (Demo.platform (Some CreateJob)) (PyStr "redshift")
             (PyStr "warehouse") (PyStr "public.src") (PyStr "public.dst")
             None None None None None Demo.options []
             (fst (Demo.transfer (Some CreateJob) []))).
    reflexivity.
Defined.

(** X6: the create-job call of [transfer_table] is made with the name
    the job-name helper answered, the type "Dbsync", the outbound flag
    set, and the two connection descriptors in place: the source
    descriptor holds the identifier resolved for [source_db], the
    destination descriptor the one resolved for [dest_db]. *)
Theorem transfer_table_descriptors srv source_db dest_db source_table
    dest_table job_name api_key source_credential_id dest_credential_id
    polling_interval advanced_options h r t client n ty o src dst :
  transfer_table srv source_db dest_db source_table dest_table job_name
    api_key source_credential_id dest_credential_id polling_interval
    advanced_options h = (r, h ++ t) ->
  APIClient_r srv h (default PyNone api_key) = Ok client ->
  EvImportsPost n ty o src dst ∈ t ->
  let jn := default PyNone job_name in
  let start := [EvAPIClient (default PyNone api_key)]
               ++ default_reads (default PyNone source_credential_id)
               ++ default_reads (default PyNone dest_credential_id) in
  exists sh dh sc dc,
    maybe_get_random_name_r srv (h ++ start) jn = Ok n /\
    get_database_id_r client (h ++ start ++ [EvRandomName jn]) source_db
      = Ok sh /\
    get_database_id_r client
      (h ++ start ++ [EvRandomName jn; EvGetDatabaseId source_db]) dest_db
      = Ok dh /\
    ty = "Dbsync" /\ o = true /\
    src = {[ "remote_host_id" := PyInt sh; "credential_id" := sc ]} /\
    dst = {[ "remote_host_id" := PyInt dh; "credential_id" := dc ]}.
Proof.
  intros H Hclient Hin jn start.
  pose proof (transfer_table_anatomy _ _ _ _ _ _ _ _ _ _ _ _ _ _ H)
    as (t' & Heq & _ & _ & _ & _ & _ & Hpost & _).
  apply app_inv_head in Heq as <-.
  destruct (Hpost client Hclient _ _ _ _ _ Hin)
    as (sh & dh & sc & dc & ? & ? & ? & ? & ? & ? & ? & _).
  exists sh, dh, sc, dc. auto 10.
Qed.

Lemma transfer_table_descriptors_witness :
  let jn := default PyNone None in
  let start := [EvAPIClient (default PyNone None)]
               ++ default_reads (default PyNone None)
               ++ default_reads (default PyNone None) in
  exists sh dh sc dc,
    maybe_get_random_name_r Demo.healthy ([] ++ start) jn
      = Ok (PyStr "f3a9c1d2") /\
    get_database_id_r (Demo.client None) ([] ++ start ++ [EvRandomName jn])
      (PyStr "redshift") = Ok sh /\
    get_database_id_r (Demo.client None)
      ([] ++ start ++ [EvRandomName jn; EvGetDatabaseId (PyStr "redshift")])
      (PyStr "warehouse") = Ok dh /\
    "Dbsync" = "Dbsync" /\ true = true /\
    ({[ "remote_host_id" := PyInt 7; "credential_id" := PyInt 42 ]} : pydict)
      = {[ "remote_host_id" := PyInt sh; "credential_id" := sc ]} /\
    ({[ "remote_host_id" := PyInt 8; "credential_id" := PyInt 42 ]} : pydict)
      = {[ "remote_host_id" := PyInt dh; "credential_id" := dc ]}.
Proof.
  apply (transfer_table_descriptors Demo.healthy (PyStr "redshift")
           (PyStr "warehouse") (PyStr "public.src") (PyStr "public.dst")
           None None None None None Demo.options []
           (fst (Demo.transfer None [])) (snd (Demo.transfer None []))
           (Demo.client None) (PyStr "f3a9c1d2") "Dbsync" true).
  - reflexivity.
  - reflexivity.
  - apply list_elem_of_In. vm_compute. auto 10.
Defined.

(** X7: a call of [transfer_table] that returns ends with the three
    submissions create-job, configure-sync and start-run, with nothing
    submitted before; configure-sync and start-run are made for the job
    identifier that create-job answered, and the future returned probes
    the run status with that job identifier and the run identifier that
    start-run answered. *)
Theorem transfer_table_threads_job_id srv source_db dest_db source_table
    dest_table job_name api_key source_credential_id dest_credential_id
    polling_interval advanced_options h f t :
  transfer_table srv source_db dest_db source_table dest_table job_name
    api_key source_credential_id dest_credential_id polling_interval
    advanced_options h = (Ok f, h ++ t) ->
  exists client pre n src dst job run,
    let create := EvImportsPost n "Dbsync" true src dst in
    let sync := EvImportsPostSyncs job {[ "path" := source_table ]}
                  {[ "path" := dest_table ]} advanced_options in
    APIClient_r srv h (default PyNone api_key) = Ok client /\
    t = pre ++ [create; sync; EvImportsPostRuns job] /\
    submissions pre = [] /\
    imports_post_r client (h ++ pre) n "Dbsync" true src dst = Ok job /\
    imports_post_runs_r client (h ++ pre ++ [create; sync]) job = Ok run /\
    f = new_PollableResult (imports_get_files_runs client) [job; run]
          (default (_DEFAULT_POLLING_INTERVAL srv) polling_interval) /\
    forall h0,
      poller f (poller_args f) h0 =
        (imports_get_files_runs_r client h0 [job; run],
         h0 ++ [EvImportsGetFilesRuns [job; run]]).
Proof.
  intros H.
  pose proof (transfer_table_anatomy _ _ _ _ _ _ _ _ _ _ _ _ _ _ H)
    as (t' & Heq & _ & _ & _ & _ & _ & _ & Hok & _).
  apply app_inv_head in Heq as <-.
  destruct (Hok f eq_refl)
    as (client & pre & n & src & dst & job & run & ? & ? & ? & ? & ? & ->).
  exists client, pre, n, src, dst, job, run. simpl. auto 10.
Qed.

Lemma transfer_table_threads_job_id_witness :
  let f := new_PollableResult (imports_get_files_runs (Demo.client None))
             [2001; 3001] (PyInt 15) in
  exists client pre n src dst job run,
    let create := EvImportsPost n "Dbsync" true src dst in
    let sync := EvImportsPostSyncs job {[ "path" := PyStr "public.src" ]}
                  {[ "path" := PyStr "public.dst" ]} Demo.options in
    APIClient_r Demo.healthy [] (default PyNone None) = Ok client /\
    snd (Demo.transfer None []) = pre ++ [create; sync; EvImportsPostRuns job] /\
    submissions pre = [] /\
    imports_post_r client ([] ++ pre) n "Dbsync" true src dst = Ok job /\
    imports_post_runs_r client ([] ++ pre ++ [create; sync]) job = Ok run /\
    f = new_PollableResult (imports_get_files_runs client) [job; run]
          (default (_DEFAULT_POLLING_INTERVAL Demo.healthy) None) /\
    forall h0,
      poller f (poller_args f) h0 =
        (imports_get_files_runs_r client h0 [job; run],
         h0 ++ [EvImportsGetFilesRuns [job; run]]).
Proof.
  intros f.
  apply (transfer_table_threads_job_id Demo.healthy (PyStr "redshift")
           (PyStr "warehouse") (PyStr "public.src") (PyStr "public.dst")
           None None None None None Demo.options [] f
           (snd (Demo.transfer None []))).
  reflexivity.
Defined.

(** X8: every query submission of [query_civis] is made for the database
    identifier that the resolution of [database] answered, with the SQL
    text as it was given, and with a truthy credential as it was given. *)
Theorem query_civis_submits_resolved_database srv sql database api_key
    credential_id preview_rows polling_interval h r t client db q m cred :
  query_civis srv sql database api_key credential_id preview_rows
              polling_interval h = (r, h ++ t) ->
  APIClient_r srv h (default PyNone api_key) = Ok client ->
  EvQueriesPost db q m cred ∈ t ->
  get_database_id_r client (h ++ [EvAPIClient (default PyNone api_key)])
                    database = Ok db /\
  q = sql /\
  (truthy (default PyNone credential_id) = true ->
   cred = default PyNone credential_id).
Proof.
  intros H Hclient Hin.
  pose proof (query_civis_anatomy _ _ _ _ _ _ _ _ _ _ H)
    as (t' & Heq & _ & _ & _ & _ & Hpost & _).
  apply app_inv_head in Heq as <-.
  destruct (Hpost client Hclient _ _ _ _ Hin) as (? & ? & _ & ?). auto.
Qed.

Lemma query_civis_submits_resolved_database_witness :
  get_database_id_r (Demo.client None) ([] ++ [EvAPIClient (default PyNone None)])
    (PyStr "redshift") = Ok 7 /\
  "select 1" = "select 1" /\
  (truthy (default PyNone (Some (PyStr "analyst"))) = true ->
   PyStr "analyst" = default PyNone (Some (PyStr "analyst"))).
Proof.
  apply (query_civis_submits_resolved_database Demo.healthy "select 1"
           (PyStr "redshift") None (Some (PyStr "analyst")) None None []
           (fst (query_civis Demo.healthy "select 1" (PyStr "redshift") None
                   (Some (PyStr "analyst")) None None []))
           (snd (query_civis Demo.healthy "select 1" (PyStr "redshift") None
                   (Some (PyStr "analyst")) None None []))
           (Demo.client None) 7 "select 1" 10 (PyStr "analyst")).
  - reflexivity.
  - reflexivity.
  - apply list_elem_of_In. vm_compute. auto 10.
Defined.

(** X9: the polling interval of [query_civis] reaches the returned
    future and nothing else: two calls that differ in the interval only
    make the same calls and either raise the same exception or return
    futures with the same probe and arguments, each with its own
    interval (the default one when it was left out). *)
Theorem query_civis_ignores_interval srv sql database api_key credential_id
    preview_rows interval1 interval2 h r1 h1 r2 h2 :
  query_civis srv sql database api_key credential_id preview_rows
              interval1 h = (r1, h1) ->
  query_civis srv sql database api_key credential_id preview_rows
              interval2 h = (r2, h2) ->
  h1 = h2 /\
  ((exists e, r1 = Raise e /\ r2 = Raise e) \/
   (exists client args,
      r1 = Ok (new_PollableResult (queries_get client) args
                 (default (_DEFAULT_POLLING_INTERVAL srv) interval1)) /\
      r2 = Ok (new_PollableResult (queries_get client) args
                 (default (_DEFAULT_POLLING_INTERVAL srv) interval2)))).
Proof.
  intros H1 H2.
  unfold query_civis in H1, H2; unfold_calls; simpl in H1, H2.
  revert H2. case_calls H1; intros H2; simpl in H2.
  all: inversion H1; inversion H2; subst; clear H1 H2.
  all: split; [reflexivity | eauto].
Qed.

Lemma query_civis_ignores_interval_witness :
  snd (Demo.query None []) =
    snd (query_civis Demo.healthy "select 1" (PyStr "redshift") None None None
           (Some (PyInt 60)) []) /\
  ((exists e,
      fst (Demo.query None []) = Raise e /\
      fst (query_civis Demo.healthy "select 1" (PyStr "redshift") None None
             None (Some (PyInt 60)) []) = Raise e) \/
   (exists client args,
      fst (Demo.query None []) =
        Ok (new_PollableResult (queries_get client) args
              (default (_DEFAULT_POLLING_INTERVAL Demo.healthy) None)) /\
      fst (query_civis Demo.healthy "select 1" (PyStr "redshift") None None
             None (Some (PyInt 60)) []) =
        Ok (new_PollableResult (queries_get client) args
              (default (_DEFAULT_POLLING_INTERVAL Demo.healthy)
                 (Some (PyInt 60)))))).
Proof.
  apply (query_civis_ignores_interval Demo.healthy "select 1"
           (PyStr "redshift") None None None None (Some (PyInt 60)) []).
  - reflexivity.
  - reflexivity.
Defined.

(** X10: the polling interval of [transfer_table] reaches the returned
    future and nothing else: two calls that differ in the interval only
    make the same calls and either raise the same exception or return
    futures with the same probe and arguments, each with its own
    interval (the default one when it was left out). *)
Theorem transfer_table_ignores_interval srv source_db dest_db source_table
    dest_table job_name api_key source_credential_id dest_credential_id
    interval1 interval2 advanced_options h r1 h1 r2 h2 :
  transfer_table srv source_db dest_db source_table dest_table job_name
    api_key source_credential_id dest_credential_id interval1
    advanced_options h = (r1, h1) ->
  transfer_table srv source_db dest_db source_table dest_table job_name
    api_key source_credential_id dest_credential_id interval2
    advanced_options h = (r2, h2) ->
  h1 = h2 /\
  ((exists e, r1 = Raise e /\ r2 = Raise e) \/
   (exists client args,
      r1 = Ok (new_PollableResult (imports_get_files_runs client) args
                 (default (_DEFAULT_POLLING_INTERVAL srv) interval1)) /\
      r2 = Ok (new_PollableResult (imports_get_files_runs client) args
                 (default (_DEFAULT_POLLING_INTERVAL srv) interval2)))).
Proof.
  intros H1 H2.
  unfold transfer_table in H1, H2; unfold_calls; simpl in H1, H2.
  revert H2. case_calls H1; intros H2; simpl in H2.
  all: inversion H1; inversion H2; subst; clear H1 H2.
  all: split; [reflexivity | eauto].
Qed.

Lemma transfer_table_ignores_interval_witness :
  snd (Demo.transfer None []) =
    snd (transfer_table Demo.healthy (PyStr "redshift") (PyStr "warehouse")
           (PyStr "public.src") (PyStr "public.dst") None None None None
           (Some (PyInt 60)) Demo.options []) /\
  ((exists e,
      fst (Demo.transfer None []) = Raise e /\
      fst (transfer_table Demo.healthy (PyStr "redshift") (PyStr "warehouse")
             (PyStr "public.src") (PyStr "public.dst") None None None None
             (Some (PyInt 60)) Demo.options []) = Raise e) \/
   (exists client args,
      fst (Demo.transfer None []) =
        Ok (new_PollableResult (imports_get_files_runs client) args
              (default (_DEFAULT_POLLING_INTERVAL Demo.healthy) None)) /\
      fst (transfer_table Demo.healthy (PyStr "redshift") (PyStr "warehouse")
             (PyStr "public.src") (PyStr "public.dst") None None None None
             (Some (PyInt 60)) Demo.options []) =
        Ok (new_PollableResult (imports_get_files_runs client) args
              (default (_DEFAULT_POLLING_INTERVAL Demo.healthy)
                 (Some (PyInt 60)))))).
Proof.
  apply (transfer_table_ignores_interval Demo.healthy (PyStr "redshift")
           (PyStr "warehouse") (PyStr "public.src") (PyStr "public.dst")
           None None None None None (Some (PyInt 60)) Demo.options []).
  - reflexivity.
  - reflexivity.
Defined.

(** X11: both functions build exactly one client, with the API key given
    ([None] when it is left out), before anything else; when the
    construction raises, that exception is the outcome and no other call
    is made. *)
Theorem client_is_built_first_and_once :
  (forall srv sql database api_key credential_id preview_rows
          polling_interval h r t,
     query_civis srv sql database api_key credential_id preview_rows
                 polling_interval h = (r, h ++ t) ->
     exists rest, t = EvAPIClient (default PyNone api_key) :: rest /\
       (forall k', EvAPIClient k' ∉ rest) /\
       (forall e, APIClient_r srv h (default PyNone api_key) = Raise e ->
                  rest = [] /\ r = Raise e)) /\
  (forall srv source_db dest_db source_table dest_table job_name api_key
          source_credential_id dest_credential_id polling_interval
          advanced_options h r t,
     transfer_table srv source_db dest_db source_table dest_table job_name
       api_key source_credential_id dest_credential_id polling_interval
       advanced_options h = (r, h ++ t) ->
     exists rest, t = EvAPIClient (default PyNone api_key) :: rest /\
       (forall k', EvAPIClient k' ∉ rest) /\
       (forall e, APIClient_r srv h (default PyNone api_key) = Raise e ->
                  rest = [] /\ r = Raise e)).
Proof.
  split.
  - intros * H.
    pose proof (query_civis_anatomy _ _ _ _ _ _ _ _ _ _ H)
      as (t' & Heq & Hfirst & _).
    by apply app_inv_head in Heq as <-.
  - intros * H.
    pose proof (transfer_table_anatomy _ _ _ _ _ _ _ _ _ _ _ _ _ _ H)
      as (t' & Heq & Hfirst & _).
    by apply app_inv_head in Heq as <-.
Qed.

Lemma client_is_built_first_and_once_witness :
  (exists rest,
     snd (query_civis Demo.healthy "select 1" (PyStr "redshift")
            (Some (PyStr "key")) None None None []) =
       EvAPIClient (default PyNone (Some (PyStr "key"))) :: rest /\
     (forall k', EvAPIClient k' ∉ rest) /\
     (forall e,
        APIClient_r Demo.healthy [] (default PyNone (Some (PyStr "key")))
          = Raise e ->
        rest = [] /\
        fst (query_civis Demo.healthy "select 1" (PyStr "redshift")
               (Some (PyStr "key")) None None None []) = Raise e)) /\
  (exists rest,
     snd (Demo.transfer None []) = EvAPIClient (default PyNone None) :: rest /\
     (forall k', EvAPIClient k' ∉ rest) /\
     (forall e,
        APIClient_r Demo.healthy [] (default PyNone None) = Raise e ->
        rest = [] /\ fst (Demo.transfer None []) = Raise e)).
Proof.
  split.
  - apply (proj1 client_is_built_first_and_once Demo.healthy "select 1"
             (PyStr "redshift") (Some (PyStr "key")) None None None []).
    reflexivity.
  - apply (proj2 client_is_built_first_and_once Demo.healthy
             (PyStr "redshift") (PyStr "warehouse") (PyStr "public.src")
             (PyStr "public.dst") None None None None None Demo.options []).
    reflexivity.
Defined.

(** X12: a call of [query_civis] makes at most four calls and a call of
    [transfer_table] at most nine, and none of them is a status probe or
    a wait: submitting never polls. *)
Theorem submission_makes_few_calls_and_never_polls :
  (forall srv sql database api_key credential_id preview_rows
          polling_interval h r t,
     query_civis srv sql database api_key credential_id preview_rows
                 polling_interval h = (r, h ++ t) ->
     (length t <= 4)%nat /\
     forallb (fun ev => negb (is_polling_event ev)) t = true) /\
  (forall srv source_db dest_db source_table dest_table job_name api_key
          source_credential_id dest_credential_id polling_interval
          advanced_options h r t,
     transfer_table srv source_db dest_db source_table dest_table job_name
       api_key source_credential_id dest_credential_id polling_interval
       advanced_options h = (r, h ++ t) ->
     (length t <= 9)%nat /\
     forallb (fun ev => negb (is_polling_event ev)) t = true).
Proof.
  split.
  - intros * H.
    pose proof (query_civis_anatomy _ _ _ _ _ _ _ _ _ _ H)
      as (t' & Heq & _ & _ & _ & _ & _ & Hfew).
    by apply app_inv_head in Heq as <-.
  - intros * H.
    pose proof (transfer_table_anatomy _ _ _ _ _ _ _ _ _ _ _ _ _ _ H)
      as (t' & Heq & _ & _ & _ & _ & _ & _ & _ & Hfew).
    by apply app_inv_head in Heq as <-.
Qed.

Lemma submission_makes_few_calls_and_never_polls_witness :
  ((length (snd (Demo.query None [])) <= 4)%nat /\
   forallb (fun ev => negb (is_polling_event ev)) (snd (Demo.query None []))
     = true) /\
  ((length (snd (Demo.transfer None [])) <= 9)%nat /\
   forallb (fun ev => negb (is_polling_event ev))
     (snd (Demo.transfer None [])) = true).
Proof.
  split.
  - apply (proj1 submission_makes_few_calls_and_never_polls Demo.healthy
             "select 1" (PyStr "redshift") None None None None []
             (fst (Demo.query None []))).
    reflexivity.
  - apply (proj2 submission_makes_few_calls_and_never_polls Demo.healthy
             (PyStr "redshift") (PyStr "warehouse") (PyStr "public.src")
             (PyStr "public.dst") None None None None None Demo.options []
             (fst (Demo.transfer None []))).
    reflexivity.
Defined.

(** X13: [transfer_table] looks up [source_db] first and [dest_db]
    second, each at most once, and a run that reached the create-job
    call has looked up both. *)
Theorem transfer_table_resolves_source_then_destination srv source_db
    dest_db source_table dest_table job_name api_key source_credential_id
    dest_credential_id polling_interval advanced_options h r t :
  transfer_table srv source_db dest_db source_table dest_table job_name
    api_key source_credential_id dest_credential_id polling_interval
    advanced_options h = (r, h ++ t) ->
  resolutions t `prefix_of`
    [EvGetDatabaseId source_db; EvGetDatabaseId dest_db] /\
  (forall client n ty o src dst,
     APIClient_r srv h (default PyNone api_key) = Ok client ->
     EvImportsPost n ty o src dst ∈ t ->
     resolutions t = [EvGetDatabaseId source_db; EvGetDatabaseId dest_db]).
Proof.
  intros H.
  pose proof (transfer_table_anatomy _ _ _ _ _ _ _ _ _ _ _ _ _ _ H)
    as (t' & Heq & _ & _ & _ & _ & Hres & Hpost & _).
  apply app_inv_head in Heq as <-. split; [done |].
  intros client n ty o src dst Hclient Hin.
  destruct (Hpost client Hclient _ _ _ _ _ Hin)
    as (sh & dh & sc & dc & _ & _ & _ & _ & _ & _ & _ & ?).
  done.
Qed.

Lemma transfer_table_resolves_source_then_destination_witness :
  resolutions (snd (Demo.transfer (Some CreateJob) [])) `prefix_of`
    [EvGetDatabaseId (PyStr "redshift"); EvGetDatabaseId (PyStr "warehouse")] /\
  (forall client n ty o src dst,
     APIClient_r (Demo.platform (Some CreateJob)) [] (default PyNone None)
       = Ok client ->
     EvImportsPost n ty o src dst ∈ snd (Demo.transfer (Some CreateJob) []) ->
     resolutions (snd (Demo.transfer (Some CreateJob) [])) =
       [EvGetDatabaseId (PyStr "redshift");
        EvGetDatabaseId (PyStr "warehouse")]).
Proof.
  apply (transfer_table_resolves_source_then_destination
           (Demo.platform (Some CreateJob)) (PyStr "redshift")
           (PyStr "warehouse") (PyStr "public.src") (PyStr "public.dst")
           None None None None None Demo.options []
           (fst (Demo.transfer (Some CreateJob) []))).
  reflexivity.
Defined.

(** X14: when a call of [query_civis] or [transfer_table] raises and the
    last call it made is not a submission (the exception comes from the
    construction of the client, a credential look-up, the job-name helper
    or a database resolution), nothing has been submitted. *)
Theorem failure_before_submission_submits_nothing :
  (forall srv sql database api_key credential_id preview_rows
          polling_interval h e t ev,
     query_civis srv sql database api_key credential_id preview_rows
                 polling_interval h = (Raise e, h ++ t) ->
     last t = Some ev -> is_submission ev = false -> submissions t = []) /\
  (forall srv source_db dest_db source_table dest_table job_name api_key
          source_credential_id dest_credential_id polling_interval
          advanced_options h e t ev,
     transfer_table srv source_db dest_db source_table dest_table job_name
       api_key source_credential_id dest_credential_id polling_interval
       advanced_options h = (Raise e, h ++ t) ->
     last t = Some ev -> is_submission ev = false -> submissions t = []).
Proof.
  split.
  - intros * H Hlast Hev.
    pose proof (query_civis_anatomy _ _ _ _ _ _ _ _ _ _ H)
      as (t' & Heq & (rest & Ht & _ & Hctor) & Hraise & _).
    apply app_inv_head in Heq as <-.
    destruct (Hraise e eq_refl) as [Hc | (c & pre & ev' & Hc & Hpre & Hf)].
    + destruct (Hctor e Hc) as [-> _]. by rewrite Ht.
    + pose proof (query_civis_run _ _ _ _ _ _ _ _ _ _ H) as (t' & Heq & Hrun).
      apply app_inv_head in Heq as <-.
      destruct (Hrun c Hc ev' e) as (_ & Hl & Hnone).
      { exists pre, []. auto. }
      rewrite Hlast in Hl. injection Hl as ->. auto.
  - intros * H Hlast Hev.
    pose proof (transfer_table_anatomy _ _ _ _ _ _ _ _ _ _ _ _ _ _ H)
      as (t' & Heq & (rest & Ht & _ & Hctor) & Hraise & _).
    apply app_inv_head in Heq as <-.
    destruct (Hraise e eq_refl) as [Hc | (c & pre & ev' & Hc & Hpre & Hf)].
    + destruct (Hctor e Hc) as [-> _]. by rewrite Ht.
    + destruct (transfer_table_failed_call _ _ _ _ _ _ _ _ _ _ _ _ _ _ c ev' e
                  H Hc) as (_ & Hl & Hnone & _).
      { exists pre, []. auto. }
      rewrite Hlast in Hl. injection Hl as ->. auto.
Qed.

Lemma failure_before_submission_submits_nothing_witness :
  submissions
    (snd (query_civis Demo.healthy "select 1" (PyStr "nonexistent_db") None
            None None None [])) = [] /\
  submissions
    (snd (transfer_table Demo.healthy (PyStr "nonexistent_db")
            (PyStr "warehouse") (PyStr "public.src") (PyStr "public.dst")
            None None None None None Demo.options [])) = [].
Proof.
  split.
  - apply (proj1 failure_before_submission_submits_nothing Demo.healthy
             "select 1" (PyStr "nonexistent_db") None None None None []
             (NotFound "nonexistent_db") _
             (EvGetDatabaseId (PyStr "nonexistent_db"))).
    + reflexivity.
    + reflexivity.
    + reflexivity.
  - apply (proj2 failure_before_submission_submits_nothing Demo.healthy
             (PyStr "nonexistent_db") (PyStr "warehouse") (PyStr "public.src")
             (PyStr "public.dst") None None None None None Demo.options []
             (NotFound "nonexistent_db") _
             (EvGetDatabaseId (PyStr "nonexistent_db"))).
    + reflexivity.
    + reflexivity.
    + reflexivity.
Defined.

(** X15: [query_civis] hands the SQL text and the preview-row count to
    the submission unread: two calls that differ in them only make the
    same calls up to the query submission, and differ there in nothing
    but the text and the count. *)
Theorem query_civis_forwards_sql_unread srv sql1 sql2 database api_key
    credential_id rows1 rows2 polling_interval h r1 h1 r2 h2 :
  query_civis srv sql1 database api_key credential_id rows1
              polling_interval h = (r1, h1) ->
  query_civis srv sql2 database api_key credential_id rows2
              polling_interval h = (r2, h2) ->
  exists pre,
    submissions pre = [] /\
    ((h1 = h ++ pre /\ h2 = h ++ pre /\
      exists e, r1 = Raise e /\ r2 = Raise e) \/
     (exists db cred,
        h1 = h ++ pre ++ [EvQueriesPost db sql1 (default 10 rows1) cred] /\
        h2 = h ++ pre ++ [EvQueriesPost db sql2 (default 10 rows2) cred])).
Proof.
  intros H1 H2.
  unfold query_civis in H1, H2; unfold_calls; simpl in H1, H2.
  revert H2. case_calls H1; intros H2; simpl in H2; case_calls H2.
  all: inversion H1; inversion H2; subst; clear H1 H2.
  all: rewrite <- ?app_assoc; simpl.
  all: first
    [ eexists; split; [| left; split; [reflexivity |]; split;
                         [reflexivity | by eauto]]; reflexivity
    | eexists [_; _]; split; [| right; eexists _, _; split; reflexivity];
      reflexivity
    | eexists [_; _; _]; split; [| right; eexists _, _; split; reflexivity];
      reflexivity ].
Qed.

Lemma query_civis_forwards_sql_unread_witness :
  exists pre,
    submissions pre = [] /\
    ((snd (Demo.query None []) = [] ++ pre /\
      snd (query_civis Demo.healthy "delete from t" (PyStr "redshift") None
             None (Some 0) None []) = [] ++ pre /\
      exists e,
        fst (Demo.query None []) = Raise e /\
        fst (query_civis Demo.healthy "delete from t" (PyStr "redshift") None
               None (Some 0) None []) = Raise e) \/
     (exists db cred,
        snd (Demo.query None []) =
          [] ++ pre ++ [EvQueriesPost db "select 1" (default 10 None) cred] /\
        snd (query_civis Demo.healthy "delete from t" (PyStr "redshift") None
               None (Some 0) None []) =
          [] ++ pre ++
            [EvQueriesPost db "delete from t" (default 10 (Some 0)) cred])).
Proof.
  apply (query_civis_forwards_sql_unread Demo.healthy "select 1"
           "delete from t" (PyStr "redshift") None None None (Some 0) None []
           (fst (Demo.query None []))).
  - reflexivity.
  - reflexivity.
Defined.

(** X16: [transfer_table] hands the two table names to the
    configure-sync call unread: two calls that differ in them only make
    the same calls up to configure-sync, which gets each name as the
    path of its side. *)
Theorem transfer_table_forwards_tables_unread srv source_db dest_db
    source1 dest1 source2 dest2 job_name api_key source_credential_id
    dest_credential_id polling_interval advanced_options h r1 h1 r2 h2 :
  transfer_table srv source_db dest_db source1 dest1 job_name
    api_key source_credential_id dest_credential_id polling_interval
    advanced_options h = (r1, h1) ->
  transfer_table srv source_db dest_db source2 dest2 job_name
    api_key source_credential_id dest_credential_id polling_interval
    advanced_options h = (r2, h2) ->
  exists pre,
    (h1 = h ++ pre /\ h2 = h ++ pre /\
     exists e, r1 = Raise e /\ r2 = Raise e) \/
    (exists id post1 post2,
       h1 = h ++ pre ++
              EvImportsPostSyncs id {[ "path" := source1 ]}
                {[ "path" := dest1 ]} advanced_options :: post1 /\
       h2 = h ++ pre ++
              EvImportsPostSyncs id {[ "path" := source2 ]}
                {[ "path" := dest2 ]} advanced_options :: post2).
Proof.
  intros H1 H2.
  unfold transfer_table in H1, H2; unfold_calls; simpl in H1, H2.
  revert H2. case_calls H1; intros H2; simpl in H2; case_calls H2.
  all: inversion H1; inversion H2; subst; clear H1 H2.
  all: rewrite <- ?app_assoc; simpl.
  all: first
    [ eexists; left; split; [reflexivity |]; split; [reflexivity |];
      by eauto
    | eexists [_; _; _; _; _]; right; eexists _, _, _; split; reflexivity
    | eexists [_; _; _; _; _; _]; right; eexists _, _, _; split; reflexivity
    | eexists [_; _; _; _; _; _; _]; right; eexists _, _, _;
      split; reflexivity ].
Qed.

Lemma transfer_table_forwards_tables_unread_witness :
  exists pre,
    (snd (Demo.transfer None []) = [] ++ pre /\
     snd (transfer_table Demo.healthy (PyStr "redshift") (PyStr "warehouse")
            (PyStr "a.b") (PyStr "c.d") None None None None None
            Demo.options []) = [] ++ pre /\
     exists e,
       fst (Demo.transfer None []) = Raise e /\
       fst (transfer_table Demo.healthy (PyStr "redshift") (PyStr "warehouse")
              (PyStr "a.b") (PyStr "c.d") None None None None None
              Demo.options []) = Raise e) \/
    (exists id post1 post2,
       snd (Demo.transfer None []) =
         [] ++ pre ++
           EvImportsPostSyncs id {[ "path" := PyStr "public.src" ]}
             {[ "path" := PyStr "public.dst" ]} Demo.options :: post1 /\
       snd (transfer_table Demo.healthy (PyStr "redshift") (PyStr "warehouse")
              (PyStr "a.b") (PyStr "c.d") None None None None None
              Demo.options []) =
         [] ++ pre ++
           EvImportsPostSyncs id {[ "path" := PyStr "a.b" ]}
             {[ "path" := PyStr "c.d" ]} Demo.options :: post2).
Proof.
  apply (transfer_table_forwards_tables_unread Demo.healthy (PyStr "redshift")
           (PyStr "warehouse") (PyStr "public.src") (PyStr "public.dst")
           (PyStr "a.b") (PyStr "c.d") None None None None None Demo.options
           [] (fst (Demo.transfer None []))
           _ (fst (transfer_table Demo.healthy (PyStr "redshift")
                     (PyStr "warehouse") (PyStr "a.b") (PyStr "c.d") None None
                     None None None Demo.options []))).
  - reflexivity.
  - reflexivity.
Defined.

(** * The submissions, and what reaches them *)

(** ** The submissions are made *)

(** Once the client is built, the database resolved and the credential
    settled, [query_civis] submits the query, and the answer to the
    submission decides how the call ends. *)
Lemma query_civis_submits srv sql database api_key credential_id preview_rows
    polling_interval h r h' client db cred :
  query_civis srv sql database api_key credential_id preview_rows
              polling_interval h = (r, h') ->
  let k := default PyNone api_key in
  let c := default PyNone credential_id in
  let n := default 10 preview_rows in
  let pre := [EvAPIClient k; EvGetDatabaseId database] ++ default_reads c in
  APIClient_r srv h k = Ok client ->
  get_database_id_r client (h ++ [EvAPIClient k]) database = Ok db ->
  (if truthy c then cred = c
   else default_credential_r client
          (h ++ [EvAPIClient k; EvGetDatabaseId database]) = Ok cred) ->
  h' = h ++ pre ++ [EvQueriesPost db sql n cred] /\
  r = match queries_post_r client (h ++ pre) db sql n cred with
      | Ok id =>
          Ok (new_PollableResult (queries_get client) [id]
                (default (_DEFAULT_POLLING_INTERVAL srv) polling_interval))
      | Raise e => Raise e
      end.
Proof.
  intros H k c n pre Hclient Hdb Hcred. subst k c n pre.
  run_query H; inversion H; subst; clear H.
  all: flatten_histories; unfold default_reads.
  all: try congruence.
  all: the_client client.
  all: repeat match goal with
              | E : truthy _ = _ |- _ => rewrite E in *
              end.
  all: try congruence.
  all: simplify_eq; simpl; rewrite <- ?app_assoc; simpl.
  all: same_answers; use_answers; auto.
Qed.


(** A database reference that never resolves ends [transfer_table] at
    its look-up, provided the credentials and the job name are there. *)
Lemma transfer_table_unresolved srv source_db dest_db source_table
    dest_table job_name api_key source_credential_id dest_credential_id
    polling_interval advanced_options h r h' client e :
  transfer_table srv source_db dest_db source_table dest_table job_name
    api_key source_credential_id dest_credential_id polling_interval
    advanced_options h = (r, h') ->
  let start := [EvAPIClient (default PyNone api_key)]
               ++ default_reads (default PyNone source_credential_id)
               ++ default_reads (default PyNone dest_credential_id)
               ++ [EvRandomName (default PyNone job_name)] in
  APIClient_r srv h (default PyNone api_key) = Ok client ->
  credential_available client ->
  name_available srv ->
  (unresolvable client source_db e ->
   r = Raise e /\ h' = h ++ start ++ [EvGetDatabaseId source_db]) /\
  (resolvable client source_db -> unresolvable client dest_db e ->
   r = Raise e /\
   h' = h ++ start ++ [EvGetDatabaseId source_db; EvGetDatabaseId dest_db]).
Proof.
  intros H start Hclient Hcred Hname. subst start.
  run_transfer H; inversion H; subst; clear H.
  all: try congruence; the_client client.
  all: try (exfalso; eapply Hcred; eassumption).
  all: try (exfalso; eapply Hname; eassumption).
  all: unfold default_reads; use_answers; simpl; rewrite <- ?app_assoc; simpl.
  all: split; [intros Hno | intros Hsrc Hdst].
  all: try (exfalso; eapply Hsrc; eassumption).
  all: try rewrite Hno in *; try rewrite Hdst in *; try discriminate.
  all: simplify_eq; auto.
Qed.

(** ** The preview-row count *)

(** C10: when [preview_rows] is not supplied, the query is submitted with
    a preview-row count of exactly 10.  Once the client is built, the
    database resolved and the credential settled, the run is these calls
    followed by the submission of the query with the count 10; every
    query submission of a run carries 10, and a run that returns made
    exactly that submission. *)
Theorem query_civis_default_preview_rows srv sql database api_key
    credential_id polling_interval h r h' :
  query_civis srv sql database api_key credential_id None
              polling_interval h = (r, h') ->
  let k := default PyNone api_key in
  let c := default PyNone credential_id in
  exists t, h' = h ++ t /\
    (forall d s n cred, EvQueriesPost d s n cred ∈ t -> n = 10) /\
    (forall f, r = Ok f ->
       exists d cred, submissions t = [EvQueriesPost d sql 10 cred]) /\
    (forall client db cred,
       APIClient_r srv h k = Ok client ->
       get_database_id_r client (h ++ [EvAPIClient k]) database = Ok db ->
       (if truthy c then cred = c
        else default_credential_r client
               (h ++ [EvAPIClient k; EvGetDatabaseId database]) = Ok cred) ->
       t = [EvAPIClient k; EvGetDatabaseId database] ++ default_reads c ++
           [EvQueriesPost db sql 10 cred]).
Proof.
  intros H k c. subst k c.
  assert (Hcalls : exists t, h' = h ++ t /\
            (forall d s n cred, EvQueriesPost d s n cred ∈ t -> n = 10) /\
            (forall f, r = Ok f ->
               exists d cred, submissions t = [EvQueriesPost d sql 10 cred])).
  { pose proof H as Hrun. run_query Hrun; name_trace Hrun.
    all: split;
      [intros d s n cred Hin; split_in Hin; congruence
      | intros f Hf; try discriminate; simpl; eauto]. }
  destruct Hcalls as (t & -> & Hten & Hone).
  exists t. split; [done |]. split; [done |]. split; [done |].
  intros client db cred Hclient Hdb Hcred.
  destruct (query_civis_submits _ _ _ _ _ _ _ _ _ _ _ _ _
              H Hclient Hdb Hcred) as [Heq _].
  by apply app_inv_head in Heq.
Qed.

Lemma query_civis_default_preview_rows_witness :
  exists t,
    [EvAPIClient PyNone; EvGetDatabaseId (PyStr "redshift");
     EvDefaultCredential; EvQueriesPost 7 "select 1" 10 (PyInt 42)]
      = [] ++ t /\
    (forall d s n cred, EvQueriesPost d s n cred ∈ t -> n = 10) /\
    (forall f,
       Ok (new_PollableResult (queries_get (Demo.client None)) [1001]
             (PyInt 15)) = Ok f ->
       exists d cred, submissions t = [EvQueriesPost d "select 1" 10 cred]) /\
    (forall client db cred,
       APIClient_r Demo.healthy [] PyNone = Ok client ->
       get_database_id_r client ([] ++ [EvAPIClient PyNone])
         (PyStr "redshift") = Ok db ->
       (if truthy PyNone then cred = PyNone
        else default_credential_r client
               ([] ++ [EvAPIClient PyNone;
                       EvGetDatabaseId (PyStr "redshift")]) = Ok cred) ->
       t = [EvAPIClient PyNone; EvGetDatabaseId (PyStr "redshift")]
           ++ default_reads PyNone ++
           [EvQueriesPost db "select 1" 10 cred]).
Proof.
  apply (query_civis_default_preview_rows Demo.healthy "select 1"
           (PyStr "redshift") None None None []).
  reflexivity.
Defined.

(** C1, as written, fails: with [preview_rows = 101] on a platform that
    answers every call, [query_civis] resolves the database, reads the
    default credential, submits the query with the count 101 and returns
    a future. *)
Lemma preview_rows_101_is_submitted :
  100 < 101 /\
  query_civis Demo.healthy "select 1" (PyStr "redshift") None None (Some 101)
              None [] =
    (Ok (new_PollableResult (queries_get (Demo.client None)) [1001] (PyInt 15)),
     [EvAPIClient PyNone; EvGetDatabaseId (PyStr "redshift");
      EvDefaultCredential; EvQueriesPost 7 "select 1" 101 (PyInt 42)]) /\
  ~ rejected_before_any_call Demo.healthy "select 1" (PyStr "redshift")
      None None 101 None [].
Proof.
  split; [lia |]. split; [reflexivity |].
  intros (e & t & Hrun & _). vm_compute in Hrun. discriminate Hrun.
Qed.

(** C1, amended: [query_civis] does not look at the preview-row count.
    Whatever the count [n] (also above 100): the run starts by building
    the client and, once it has one, resolving the database; once the
    database is resolved and the credential settled, the query is
    submitted with [n] unchanged, and the answer to that submission is
    the outcome of the call; every query submission of the run carries
    [n], and a run that returns submitted exactly once; an exception only
    ever is the one with which the last call made was answered. *)
Theorem query_civis_forwards_preview_rows srv sql database api_key
    credential_id n polling_interval h r h' :
  query_civis srv sql database api_key credential_id (Some n)
              polling_interval h = (r, h') ->
  let k := default PyNone api_key in
  let c := default PyNone credential_id in
  let pre := [EvAPIClient k; EvGetDatabaseId database] ++ default_reads c in
  exists t, h' = h ++ t /\
    (forall d s m cred, EvQueriesPost d s m cred ∈ t -> m = n) /\
    (forall f, r = Ok f ->
       exists d cred, submissions t = [EvQueriesPost d sql n cred]) /\
    (forall client,
       APIClient_r srv h k = Ok client ->
       stops_at_failure srv client h t r /\
       exists t', t = EvAPIClient k :: EvGetDatabaseId database :: t') /\
    (forall client db cred,
       APIClient_r srv h k = Ok client ->
       get_database_id_r client (h ++ [EvAPIClient k]) database = Ok db ->
       (if truthy c then cred = c
        else default_credential_r client
               (h ++ [EvAPIClient k; EvGetDatabaseId database]) = Ok cred) ->
       t = pre ++ [EvQueriesPost db sql n cred] /\
       r = match queries_post_r client (h ++ pre) db sql n cred with
           | Ok id =>
               Ok (new_PollableResult (queries_get client) [id]
                     (default (_DEFAULT_POLLING_INTERVAL srv)
                        polling_interval))
           | Raise e => Raise e
           end) /\
    (forall e, r = Raise e ->
       APIClient_r srv h k = Raise e \/
       exists client before ev,
         APIClient_r srv h k = Ok client /\ t = before ++ [ev] /\
         failure srv client (h ++ before) ev = Some e).
Proof.
  intros H k c pre. subst k c pre.
  assert (Hcalls : exists t, h' = h ++ t /\
            (forall d s m cred, EvQueriesPost d s m cred ∈ t -> m = n) /\
            (forall f, r = Ok f ->
               exists d cred, submissions t = [EvQueriesPost d sql n cred]) /\
            (forall client,
               APIClient_r srv h (default PyNone api_key) = Ok client ->
               stops_at_failure srv client h t r /\
               exists t', t = EvAPIClient (default PyNone api_key)
                                :: EvGetDatabaseId database :: t')).
  { pose proof H as Hrun. run_query Hrun; name_trace Hrun.
    all: split; [intros d s m cred Hin; split_in Hin; congruence |].
    all: split; [intros f Hf; try discriminate; simpl; eauto |].
    all: intros client Hclient; try congruence; the_client client.
    all: split; [repeat (simpl; use_answers); auto | eauto]. }
  destruct Hcalls as (t & -> & Hn & Hone & Hstop).
  pose proof (query_civis_anatomy _ _ _ _ _ _ _ _ _ _ H)
    as (t0 & Heq0 & _ & Hraise & _).
  apply app_inv_head in Heq0 as <-.
  exists t. split; [done |]. split; [done |]. split; [done |].
  split; [done |]. split; [| exact Hraise].
  intros client db cred Hclient Hdb Hcred.
  destruct (query_civis_submits _ _ _ _ _ _ _ _ _ _ _ _ _
              H Hclient Hdb Hcred) as [Heq Hr].
  split; [by apply app_inv_head in Heq | exact Hr].
Qed.

Lemma query_civis_forwards_preview_rows_witness :
  let k := default PyNone None in
  let c := default PyNone None in
  let pre := [EvAPIClient k; EvGetDatabaseId (PyStr "redshift")]
             ++ default_reads c in
  let r := Ok (new_PollableResult (queries_get (Demo.client None)) [1001]
                 (PyInt 15)) in
  exists t,
    [EvAPIClient PyNone; EvGetDatabaseId (PyStr "redshift");
     EvDefaultCredential; EvQueriesPost 7 "select 1" 101 (PyInt 42)]
      = [] ++ t /\
    (forall d s m cred, EvQueriesPost d s m cred ∈ t -> m = 101) /\
    (forall f, r = Ok f ->
       exists d cred, submissions t = [EvQueriesPost d "select 1" 101 cred]) /\
    (forall client,
       APIClient_r Demo.healthy [] k = Ok client ->
       stops_at_failure Demo.healthy client [] t r /\
       exists t', t = EvAPIClient k :: EvGetDatabaseId (PyStr "redshift") :: t') /\
    (forall client db cred,
       APIClient_r Demo.healthy [] k = Ok client ->
       get_database_id_r client ([] ++ [EvAPIClient k]) (PyStr "redshift")
         = Ok db ->
       (if truthy c then cred = c
        else default_credential_r client
               ([] ++ [EvAPIClient k; EvGetDatabaseId (PyStr "redshift")])
               = Ok cred) ->
       t = pre ++ [EvQueriesPost db "select 1" 101 cred] /\
       r = match queries_post_r client ([] ++ pre) db "select 1" 101 cred with
           | Ok id =>
               Ok (new_PollableResult (queries_get client) [id]
                     (default (_DEFAULT_POLLING_INTERVAL Demo.healthy) None))
           | Raise e => Raise e
           end) /\
    (forall e, r = Raise e ->
       APIClient_r Demo.healthy [] k = Raise e \/
       exists client before ev,
         APIClient_r Demo.healthy [] k = Ok client /\ t = before ++ [ev] /\
         failure Demo.healthy client ([] ++ before) ev = Some e).
Proof.
  intros k c pre r.
  apply (query_civis_forwards_preview_rows Demo.healthy "select 1"
           (PyStr "redshift") None None 101 None []).
  reflexivity.
Defined.

(** ** A database that does not resolve *)

(** C5, as written, fails: the functions raise what the resolver raises.
    With a client for which an unknown database name is a [ValueError],
    [query_civis] raises that [ValueError], not a [NotFound]. *)
Lemma unknown_database_raises_the_resolvers_error :
  query_civis strict_platform "select 1" (PyStr "nonexistent_db") None None
              None None [] =
    (Raise (ValueError "Database nonexistent_db not found."),
     [EvAPIClient PyNone; EvGetDatabaseId (PyStr "nonexistent_db")]) /\
  exn_class (ValueError "Database nonexistent_db not found.") <> "NotFound" /\
  ~ unresolved_raises_NotFound.
Proof.
  split; [reflexivity |]. split; [discriminate |].
  intros Hclaim.
  destruct (Hclaim strict_platform "select 1" (PyStr "nonexistent_db") None
              None None None []
              (Raise (ValueError "Database nonexistent_db not found."))
              [EvAPIClient PyNone; EvGetDatabaseId (PyStr "nonexistent_db")]
              strict_client
              (ValueError "Database nonexistent_db not found.")
              eq_refl eq_refl eq_refl)
    as (e' & He' & Hclass & _).
  injection He' as <-. discriminate Hclass.
Qed.

(** C5, amended: when the resolution of a database reference fails,
    [query_civis] and [transfer_table] raise the exception the resolver
    raised, unchanged (a [NotFound] when that is what the resolver
    raises), and make no submission: no query job, no transfer job, no
    sync configuration and no run start.  For [query_civis] the look-up
    is the second and last call of such a run.  For [transfer_table] a
    reference that never resolves ends every run at its look-up once the
    credentials and the job name are there, and in any run a look-up
    that raises is the last call made. *)
Theorem unresolved_database_makes_no_submission :
  (forall srv sql database api_key credential_id preview_rows
          polling_interval h r t client e,
     query_civis srv sql database api_key credential_id preview_rows
                 polling_interval h = (r, h ++ t) ->
     APIClient_r srv h (default PyNone api_key) = Ok client ->
     get_database_id_r client (h ++ [EvAPIClient (default PyNone api_key)])
                       database = Raise e ->
     r = Raise e /\
     t = [EvAPIClient (default PyNone api_key); EvGetDatabaseId database] /\
     submissions t = []) /\
  (forall srv source_db dest_db source_table dest_table job_name api_key
          source_credential_id dest_credential_id polling_interval
          advanced_options h r t client e,
     transfer_table srv source_db dest_db source_table dest_table job_name
       api_key source_credential_id dest_credential_id polling_interval
       advanced_options h = (r, h ++ t) ->
     APIClient_r srv h (default PyNone api_key) = Ok client ->
     credential_available client ->
     name_available srv ->
     unresolvable client source_db e \/
     (resolvable client source_db /\ unresolvable client dest_db e) ->
     r = Raise e /\ submissions t = [] /\
     exists db, (db = source_db \/ db = dest_db) /\
                last t = Some (EvGetDatabaseId db)) /\
  (forall srv source_db dest_db source_table dest_table job_name api_key
          source_credential_id dest_credential_id polling_interval
          advanced_options h r t client db e,
     transfer_table srv source_db dest_db source_table dest_table job_name
       api_key source_credential_id dest_credential_id polling_interval
       advanced_options h = (r, h ++ t) ->
     APIClient_r srv h (default PyNone api_key) = Ok client ->
     call_failed srv client h t (EvGetDatabaseId db) e ->
     r = Raise e /\ last t = Some (EvGetDatabaseId db) /\
     submissions t = []).
Proof.
  split; [| split].
  - intros * H Hclient Hfail.
    pose proof (query_civis_anatomy _ _ _ _ _ _ _ _ _ _ H)
      as (t' & Heq & _ & _ & _ & Hres & _).
    apply app_inv_head in Heq as <-.
    destruct (Hres client e Hclient Hfail) as [-> ->]. auto.
  - intros * H Hclient Hcred Hname Hno.
    destruct (transfer_table_unresolved _ _ _ _ _ _ _ _ _ _ _ _ _ _ _ e
                H Hclient Hcred Hname) as [Hsrc Hdst].
    unfold default_reads in *.
    destruct Hno as [Hno | [Hyes Hno]];
      [destruct (Hsrc Hno) as [-> Heq] | destruct (Hdst Hyes Hno) as [-> Heq]].
    all: apply app_inv_head in Heq; subst t.
    all: destruct (truthy (default PyNone source_credential_id)),
                  (truthy (default PyNone dest_credential_id)); simpl.
    all: repeat split; eauto.
  - intros * H Hclient Hfail.
    destruct (transfer_table_failed_call _ _ _ _ _ _ _ _ _ _ _ _ _ _ _ _ _
                H Hclient Hfail) as (? & ? & Hnone & _).
    auto.
Qed.

Lemma unresolved_database_makes_no_submission_witness :
  (fst (query_civis strict_platform "select 1" (PyStr "nonexistent_db") None
          None None None [])
     = Raise (ValueError "Database nonexistent_db not found.") /\
   [EvAPIClient PyNone; EvGetDatabaseId (PyStr "nonexistent_db")] =
     [EvAPIClient (default PyNone None);
      EvGetDatabaseId (PyStr "nonexistent_db")] /\
   submissions [EvAPIClient PyNone; EvGetDatabaseId (PyStr "nonexistent_db")]
     = []) /\
  (fst (transfer_table Demo.healthy (PyStr "redshift")
          (PyStr "nonexistent_db") (PyStr "public.src") (PyStr "public.dst")
          None None None None None Demo.options [])
     = Raise (NotFound "nonexistent_db") /\
   submissions
     [EvAPIClient PyNone; EvDefaultCredential; EvDefaultCredential;
      EvRandomName PyNone; EvGetDatabaseId (PyStr "redshift");
      EvGetDatabaseId (PyStr "nonexistent_db")] = [] /\
   exists db,
     (db = PyStr "redshift" \/ db = PyStr "nonexistent_db") /\
     last [EvAPIClient PyNone; EvDefaultCredential; EvDefaultCredential;
           EvRandomName PyNone; EvGetDatabaseId (PyStr "redshift");
           EvGetDatabaseId (PyStr "nonexistent_db")]
       = Some (EvGetDatabaseId db)) /\
  (fst (transfer_table Demo.healthy (PyStr "nonexistent_db")
          (PyStr "warehouse") (PyStr "public.src") (PyStr "public.dst")
          None None None None None Demo.options [])
     = Raise (NotFound "nonexistent_db") /\
   last ([EvAPIClient PyNone; EvDefaultCredential; EvDefaultCredential;
          EvRandomName PyNone]
         ++ [EvGetDatabaseId (PyStr "nonexistent_db")])
     = Some (EvGetDatabaseId (PyStr "nonexistent_db")) /\
   submissions ([EvAPIClient PyNone; EvDefaultCredential; EvDefaultCredential;
                 EvRandomName PyNone]
                ++ [EvGetDatabaseId (PyStr "nonexistent_db")]) = []).
Proof.
  split; [| split].
  - apply (proj1 unresolved_database_makes_no_submission strict_platform
             "select 1" (PyStr "nonexistent_db") None None None None []
             _ _ strict_client
             (ValueError "Database nonexistent_db not found.")).
    + reflexivity.
    + reflexivity.
    + reflexivity.
  - apply (proj1 (proj2 unresolved_database_makes_no_submission) Demo.healthy
             (PyStr "redshift") (PyStr "nonexistent_db") (PyStr "public.src")
             (PyStr "public.dst") None None None None None Demo.options []
             _ _ (Demo.client None) (NotFound "nonexistent_db")).
    + reflexivity.
    + reflexivity.
    + intros h e. discriminate.
    + intros h name e. discriminate.
    + right. split; [intros h e; discriminate | intros h; reflexivity].
  - apply (proj2 (proj2 unresolved_database_makes_no_submission) Demo.healthy
             (PyStr "nonexistent_db") (PyStr "warehouse") (PyStr "public.src")
             (PyStr "public.dst") None None None None None Demo.options []
             _ _ (Demo.client None) (PyStr "nonexistent_db")
             (NotFound "nonexistent_db")).
    + reflexivity.
    + reflexivity.
    + apply last_call_failed. reflexivity.
Defined.

(** ** The advanced options *)


